(** * Marketing team service: task lifecycle, pipeline invocation, extraction

    A shallow embedding of
      - src/backend/services/marketing_crew.py  (MarketingCrewService)
      - src/backend/services/task_service.py    (TaskService)
      - src/backend/main.py                     (the GET /tasks handler)
      - src/shared/models.py, src/backend/db_models.py (the data model)
    and the properties of the specification that concern them. *)

From Stdlib Require Import Ascii.
From stdpp Require Import gmap strings list fin_maps sorting.

(** ** Python text operations

    A Python [str] is modelled as a [string] whose characters are the code
    points below 256.  [py_lower], [py_strip], [py_split], [py_join] and
    [py_in] are [str.lower], [str.strip], [str.split(sep)] with a
    one-character separator, [sep.join] and the substring test [x in s]
    on such strings. *)

Module PyStr.

Definition newline : ascii := ascii_of_nat 10.

(** Upper-case code points below 256: A-Z, and U+00C0..U+00DE except the
    multiplication sign U+00D7; each maps to the code point 32 above. *)
Definition is_upper (c : ascii) : bool :=
  let n := nat_of_ascii c in
  ((65 <=? n) && (n <=? 90))
  || ((192 <=? n) && (n <=? 222) && negb (n =? 215)).

Definition lower_char (c : ascii) : ascii :=
  if is_upper c then ascii_of_nat (nat_of_ascii c + 32) else c.

Fixpoint py_lower (s : string) : string :=
  match s with
  | EmptyString => EmptyString
  | String c rest => String (lower_char c) (py_lower rest)
  end.

(** [str.isspace] on one code point below 256. *)
Definition isspace (c : ascii) : bool :=
  let n := nat_of_ascii c in
  ((9 <=? n) && (n <=? 13)) || ((28 <=? n) && (n <=? 32))
  || (n =? 133) || (n =? 160).

Fixpoint lstrip (s : string) : string :=
  match s with
  | EmptyString => EmptyString
  | String c rest => if isspace c then lstrip rest else s
  end.

Fixpoint rstrip (s : string) : string :=
  match s with
  | EmptyString => EmptyString
  | String c rest =>
      match rstrip rest with
      | EmptyString => if isspace c then EmptyString else String c EmptyString
      | kept => String c kept
      end
  end.

Definition py_strip (s : string) : string := rstrip (lstrip s).

(** [needle in hay]. *)
Fixpoint py_in (needle hay : string) : bool :=
  String.prefix needle hay
  || match hay with
     | EmptyString => false
     | String _ rest => py_in needle rest
     end.

(** [s.split(sep)] for a one-character separator: never the empty list. *)
Fixpoint py_split (sep : ascii) (s : string) : list string :=
  match s with
  | EmptyString => [EmptyString]
  | String c rest =>
      if Ascii.eqb c sep then EmptyString :: py_split sep rest
      else match py_split sep rest with
           | [] => [String c EmptyString]
           | field :: fields => String c field :: fields
           end
  end.

(** [sep.join(items)]. *)
Fixpoint py_join (sep : string) (items : list string) : string :=
  match items with
  | [] => EmptyString
  | [x] => x
  | x :: rest => x +:+ sep +:+ py_join sep rest
  end.

(** Truthiness of an [Optional[str]]: [None] and the empty text are falsy. *)
Definition truthy (o : option string) : bool :=
  match o with
  | None => false
  | Some EmptyString => false
  | Some (String _ _) => true
  end.

(** [needle] occurs in [hay] as a contiguous block. *)
Definition is_substring (needle hay : string) : Prop :=
  ∃ pre post, hay = pre +:+ needle +:+ post.

End PyStr.

Import PyStr.

(** ** The agent-pipeline service: result extraction
    (marketing_crew.py, lines 169-199) *)

Definition platforms : list string :=
  ["instagram"; "twitter"; "linkedin"; "facebook"].

Definition _extract_content_strategy (result : string) : option string :=
  if py_in "strategy" (py_lower result) || py_in "content" (py_lower result)
  then Some result else None.

(** [any(platform in line.lower() for platform in [...])] *)
Definition mentions_platform (line : string) : bool :=
  existsb (fun platform => py_in platform (py_lower line)) platforms.

Definition _extract_social_posts (result : string) : list string :=
  let lines := py_split newline result in
  let posts :=
    fold_left
      (fun posts line =>
         if mentions_platform line then posts ++ [py_strip line] else posts)
      lines [] in
  take 7 posts.

Definition _extract_blog_outline (result : string) : option string :=
  if py_in "blog" (py_lower result) || py_in "outline" (py_lower result)
  then Some result else None.

Definition mentions_campaign (line : string) : bool :=
  py_in "campaign" (py_lower line) || py_in "idea" (py_lower line).

Definition _extract_campaign_ideas (result : string) : list string :=
  let lines := py_split newline result in
  let ideas :=
    fold_left
      (fun ideas line =>
         if mentions_campaign line then ideas ++ [py_strip line] else ideas)
      lines [] in
  take 5 ideas.

(** ** Calls that may raise

    A Python call either returns a value or raises; an exception is
    represented by its textual description [str(e)]. *)

Inductive outcome (A : Type) : Type :=
  | Returned (a : A)
  | Raised (e : string).
Arguments Returned {A} a.
Arguments Raised {A} e.

#[global] Instance outcome_ret : MRet outcome := λ A a, Returned a.
#[global] Instance outcome_bind : MBind outcome := λ A B f m,
  match m with
  | Returned a => f a
  | Raised e => Raised e
  end.

(** [try: body  except Exception as e: handler(e)] *)
Definition try_except {A} (body : outcome A) (handler : string → outcome A)
  : outcome A :=
  match body with
  | Returned a => Returned a
  | Raised e => handler e
  end.

(** ** The agent-orchestration library (external)

    The library's [Agent], [Task] and [Crew] constructors validate their
    arguments and may raise; [kickoff] runs the pipeline and may raise.
    [kickoff_str] stands for [str(crew.kickoff())].  The language-model
    client held by the service is part of the library instance. *)

Record AgentArgs := {
  role : string;
  goal : string;
  backstory : string;
  verbose : bool;
  allow_delegation : bool;
}.

Record TaskArgs (Agent : Type) := {
  description : string;
  agent : Agent;
  expected_output : string;
}.
Arguments description {Agent} _.
Arguments agent {Agent} _.
Arguments expected_output {Agent} _.

Inductive Process := sequential | hierarchical.

Record CrewLib := {
  Agent : Type;
  Task : Type;
  Crew : Type;
  new_Agent : AgentArgs → outcome Agent;
  new_Task : TaskArgs Agent → outcome Task;
  new_Crew : list Agent → list Task → Process → bool → outcome Crew;
  kickoff_str : Crew → outcome string;
}.

(** The process-wide settings the services read (shared/config.py). *)
Record Settings := {
  app_language : string;
}.

(** The result bundle: the dict built by [execute_marketing_task].  A field
    is [None] when the key is not in the dict; [get field default] is
    [result.get(key, default)]. *)
Module Bundle.
Record t := {
  status : option string;
  topic : option string;
  result : option string;
  content_strategy : option (option string);
  social_media_posts : option (list string);
  blog_outline : option (option string);
  campaign_ideas : option (list string);
  error_message : option string;
}.
Definition get {A} (field : option A) (dflt : A) : A := default dflt field.
End Bundle.

(** ** The agent-pipeline service (marketing_crew.py, lines 30-167) *)

Section MarketingCrewService.
Variable L : CrewLib.
Variable settings : Settings.

(** [language or settings.app_language]: [None] and the empty text are falsy. *)
Definition output_language_of (language : option string) : string :=
  if truthy language then default (app_language settings) language
  else app_language settings.

Definition create_marketing_crew (topic : string) (language : option string)
  : outcome (Crew L) :=
  let output_language := output_language_of language in
  strategist ← new_Agent L
    {| role := "Marketing Strategist";
       goal := "Develop comprehensive marketing strategies for " +:+ topic;
       backstory := "You are an experienced marketing strategist with over 15 years 
            of experience in developing successful marketing campaigns. You excel at 
            understanding market trends, target audiences, and competitive landscapes. 
            Your strategies are data-driven and innovative.";
       verbose := true;
       allow_delegation := false |};
  content_creator ← new_Agent L
    {| role := "Content Creator";
       goal := "Create engaging and compelling content for " +:+ topic;
       backstory := "You are a creative content creator specializing in marketing 
            content. You have a talent for crafting messages that resonate with audiences, 
            creating blog posts, social media content, and marketing copy that drives 
            engagement and conversions.";
       verbose := true;
       allow_delegation := false |};
  social_media_specialist ← new_Agent L
    {| role := "Social Media Specialist";
       goal := "Develop social media strategies and posts for " +:+ topic;
       backstory := "You are a social media expert who understands the nuances of 
            different platforms. You know how to create content that performs well on 
            Instagram, Twitter, LinkedIn, Facebook, and TikTok. Your posts are optimized 
            for engagement and reach.";
       verbose := true;
       allow_delegation := false |};
  campaign_manager ← new_Agent L
    {| role := "Campaign Manager";
       goal := "Coordinate and manage marketing campaigns for " +:+ topic;
       backstory := "You are a results-driven campaign manager with expertise in 
            planning, executing, and optimizing marketing campaigns. You ensure all 
            marketing efforts are aligned, on schedule, and delivering measurable results. 
            You excel at coordinating between different team members and stakeholders.";
       verbose := true;
       allow_delegation := false |};
  strategy_task ← new_Task L
    {| description := "Develop a comprehensive marketing strategy for " +:+ topic +:+ ". 
            Include target audience analysis, key messaging, competitive positioning, 
            and recommended marketing channels. Output should be in " +:+ output_language +:+ ".";
       agent := strategist;
       expected_output := "A detailed marketing strategy document with audience analysis, messaging, and channel recommendations" |};
  content_task ← new_Task L
    {| description := "Based on the marketing strategy, create engaging content 
            including a blog post outline, key messaging points, and content themes. 
            Output should be in " +:+ output_language +:+ ".";
       agent := content_creator;
       expected_output := "Content plan with blog outline, messaging points, and content themes" |};
  social_media_task ← new_Task L
    {| description := "Create 5-7 social media posts for different platforms 
            (Instagram, Twitter, LinkedIn) based on the marketing strategy and content 
            plan. Each post should be platform-appropriate and engaging. Output should 
            be in " +:+ output_language +:+ ".";
       agent := social_media_specialist;
       expected_output := "A list of 5-7 social media posts optimized for different platforms" |};
  campaign_task ← new_Task L
    {| description := "Based on all previous work, create a comprehensive campaign 
            plan that includes timeline, key milestones, success metrics, and 
            implementation steps. Ensure all elements are coordinated. Output should 
            be in " +:+ output_language +:+ ".";
       agent := campaign_manager;
       expected_output := "A complete campaign plan with timeline, milestones, metrics, and implementation steps" |};
  new_Crew L
    [strategist; content_creator; social_media_specialist; campaign_manager]
    [strategy_task; content_task; social_media_task; campaign_task]
    sequential true.

Definition execute_marketing_task (topic : string) (language : option string)
  : outcome Bundle.t :=
  crew ← create_marketing_crew topic language;
  try_except
    (result_str ← kickoff_str L crew;
     mret {| Bundle.status := Some "completed";
             Bundle.topic := Some topic;
             Bundle.result := Some result_str;
             Bundle.content_strategy :=
               Some (_extract_content_strategy result_str);
             Bundle.social_media_posts :=
               Some (_extract_social_posts result_str);
             Bundle.blog_outline := Some (_extract_blog_outline result_str);
             Bundle.campaign_ideas :=
               Some (_extract_campaign_ideas result_str);
             Bundle.error_message := None |})
    (λ e,
     mret {| Bundle.status := Some "failed";
             Bundle.topic := Some topic;
             Bundle.result := None;
             Bundle.content_strategy := None;
             Bundle.social_media_posts := None;
             Bundle.blog_outline := None;
             Bundle.campaign_ideas := None;
             Bundle.error_message := Some e |}).

End MarketingCrewService.

(** ** The data model (shared/models.py, backend/db_models.py) *)

Inductive TaskStatus := PENDING | IN_PROGRESS | COMPLETED | FAILED | CANCELLED.

(** [TaskStatus.X.value] *)
Definition value (s : TaskStatus) : string :=
  match s with
  | PENDING => "pending"
  | IN_PROGRESS => "in_progress"
  | COMPLETED => "completed"
  | FAILED => "failed"
  | CANCELLED => "cancelled"
  end.

(** [TaskStatus(text)]: the member with that value, [ValueError] otherwise. *)
Definition TaskStatus_of (text : string) : outcome TaskStatus :=
  if String.eqb text "pending" then Returned PENDING
  else if String.eqb text "in_progress" then Returned IN_PROGRESS
  else if String.eqb text "completed" then Returned COMPLETED
  else if String.eqb text "failed" then Returned FAILED
  else if String.eqb text "cancelled" then Returned CANCELLED
  else Raised ("'" +:+ text +:+ "' is not a valid TaskStatus").

(** A stored status is terminal when it is completed, failed or cancelled. *)
Definition terminal (status : string) : bool :=
  String.eqb status (value COMPLETED) || String.eqb status (value FAILED)
  || String.eqb status (value CANCELLED).

(** The persisted row (table marketing_tasks).  Timestamps are clock ticks;
    a nullable column is an [option]. *)
Module MarketingTask.
Record t := {
  id : nat;
  task_id : string;
  topic : string;
  status : string;
  created_at : nat;
  completed_at : option nat;
  result : option string;
  content_strategy : option string;
  social_media_posts : option string;
  blog_outline : option string;
  campaign_ideas : option string;
  error_message : option string;
  language : option string;
}.

(** Attribute assignment [task.attr = v]. *)
Definition set_status (v : string) (r : t) : t :=
  {| id := id r; task_id := task_id r; topic := topic r; status := v;
     created_at := created_at r; completed_at := completed_at r;
     result := result r; content_strategy := content_strategy r;
     social_media_posts := social_media_posts r;
     blog_outline := blog_outline r; campaign_ideas := campaign_ideas r;
     error_message := error_message r; language := language r |}.
Definition set_completed_at (v : option nat) (r : t) : t :=
  {| id := id r; task_id := task_id r; topic := topic r; status := status r;
     created_at := created_at r; completed_at := v;
     result := result r; content_strategy := content_strategy r;
     social_media_posts := social_media_posts r;
     blog_outline := blog_outline r; campaign_ideas := campaign_ideas r;
     error_message := error_message r; language := language r |}.
Definition set_result (v : option string) (r : t) : t :=
  {| id := id r; task_id := task_id r; topic := topic r; status := status r;
     created_at := created_at r; completed_at := completed_at r;
     result := v; content_strategy := content_strategy r;
     social_media_posts := social_media_posts r;
     blog_outline := blog_outline r; campaign_ideas := campaign_ideas r;
     error_message := error_message r; language := language r |}.
Definition set_content_strategy (v : option string) (r : t) : t :=
  {| id := id r; task_id := task_id r; topic := topic r; status := status r;
     created_at := created_at r; completed_at := completed_at r;
     result := result r; content_strategy := v;
     social_media_posts := social_media_posts r;
     blog_outline := blog_outline r; campaign_ideas := campaign_ideas r;
     error_message := error_message r; language := language r |}.
Definition set_social_media_posts (v : option string) (r : t) : t :=
  {| id := id r; task_id := task_id r; topic := topic r; status := status r;
     created_at := created_at r; completed_at := completed_at r;
     result := result r; content_strategy := content_strategy r;
     social_media_posts := v;
     blog_outline := blog_outline r; campaign_ideas := campaign_ideas r;
     error_message := error_message r; language := language r |}.
Definition set_blog_outline (v : option string) (r : t) : t :=
  {| id := id r; task_id := task_id r; topic := topic r; status := status r;
     created_at := created_at r; completed_at := completed_at r;
     result := result r; content_strategy := content_strategy r;
     social_media_posts := social_media_posts r;
     blog_outline := v; campaign_ideas := campaign_ideas r;
     error_message := error_message r; language := language r |}.
Definition set_campaign_ideas (v : option string) (r : t) : t :=
  {| id := id r; task_id := task_id r; topic := topic r; status := status r;
     created_at := created_at r; completed_at := completed_at r;
     result := result r; content_strategy := content_strategy r;
     social_media_posts := social_media_posts r;
     blog_outline := blog_outline r; campaign_ideas := v;
     error_message := error_message r; language := language r |}.
Definition set_error_message (v : option string) (r : t) : t :=
  {| id := id r; task_id := task_id r; topic := topic r; status := status r;
     created_at := created_at r; completed_at := completed_at r;
     result := result r; content_strategy := content_strategy r;
     social_media_posts := social_media_posts r;
     blog_outline := blog_outline r; campaign_ideas := campaign_ideas r;
     error_message := v; language := language r |}.
End MarketingTask.

(** The API-facing result record. *)
Module TaskResult.
Record t := {
  task_id : string;
  topic : string;
  status : TaskStatus;
  created_at : nat;
  completed_at : option nat;
  content_strategy : option string;
  social_media_posts : option (list string);
  blog_outline : option string;
  campaign_ideas : option (list string);
  error_message : option string;
}.
End TaskResult.

(** ** The world an operation runs in

    [store] is the committed content of the table, keyed by the uniquely
    indexed [task_id]; [session] holds the objects the current database
    session has loaded, with the attribute writes not yet committed;
    [store_fault] is [Some e] when the store is unreachable, in which case
    every statement raises [e]; [_running_tasks] is the cancellation
    registry of the service instance; [clock] is what [datetime.now()]
    reads. *)
Record World := {
  store : gmap string MarketingTask.t;
  store_fault : option string;
  session : gmap string MarketingTask.t;
  _running_tasks : gmap string bool;
  clock : nat;
}.

Definition with_store (f : gmap string MarketingTask.t → gmap string MarketingTask.t)
  (w : World) : World :=
  {| store := f (store w); store_fault := store_fault w; session := session w;
     _running_tasks := _running_tasks w; clock := clock w |}.
Definition with_session (f : gmap string MarketingTask.t → gmap string MarketingTask.t)
  (w : World) : World :=
  {| store := store w; store_fault := store_fault w; session := f (session w);
     _running_tasks := _running_tasks w; clock := clock w |}.
Definition with_running (f : gmap string bool → gmap string bool)
  (w : World) : World :=
  {| store := store w; store_fault := store_fault w; session := session w;
     _running_tasks := f (_running_tasks w); clock := clock w |}.

(** An operation on the world: it returns or raises, and leaves a world. *)
Definition M (A : Type) : Type := World → outcome A * World.

#[global] Instance M_ret : MRet M := λ A a w, (Returned a, w).
#[global] Instance M_bind : MBind M := λ A B f m w,
  match m w with
  | (Returned a, w') => f a w'
  | (Raised e, w') => (Raised e, w')
  end.

(** An operation given by what it does to the world. *)
Definition act {A} (f : World → outcome A * World) : M A := f.

Definition lift {A} (o : outcome A) : M A := λ w, (o, w).

Definition try_exceptM {A} (body : M A) (handler : string → M A) : M A :=
  λ w, match body w with
       | (Returned a, w') => (Returned a, w')
       | (Raised e, w') => handler e w'
       end.

Definition modify (f : World → World) : M unit := λ w, (Returned (), f w).

(** Every statement first reaches the store. *)
Definition reach_store : M unit := λ w,
  match store_fault w with
  | Some e => (Raised e, w)
  | None => (Returned (), w)
  end.

(** [datetime.now()] *)
Definition datetime_now : M nat := λ w, (Returned (clock w), w).

(** ** The database session (shared/database.py, as the services use it) *)

(** [async with AsyncSessionLocal() as db]: a session that has loaded nothing. *)
Definition new_session : M unit := modify (with_session (λ _, ∅)).

(** The object the local variable [task] refers to. *)
Definition deref (task_id : string) : M MarketingTask.t := λ w,
  match session w !! task_id with
  | Some obj => (Returned obj, w)
  | None => (Raised "instance is not bound to the session", w)
  end.

(** [task.attr = v] *)
Definition setattr (task_id : string) (assign : MarketingTask.t → MarketingTask.t)
  : M unit :=
  modify (with_session (alter assign task_id)).

(** [await db.commit()]: the attribute writes of the session reach the store. *)
Definition commit : M unit :=
  reach_store;;
  modify (λ w, with_store (λ rows, session w ∪ rows) w).

(** [await db.refresh(task)]: the object is reloaded from its row. *)
Definition refresh (task_id : string) : M unit :=
  reach_store;;
  act (λ w, match store w !! task_id with
            | Some row => (Returned (), with_session (insert task_id row) w)
            | None => (Raised "could not refresh instance", w)
            end).

(** The object for a selected row: the one the session already holds for
    that identity, else a new one loaded from the row. *)
Definition load (task_id : string) (row : MarketingTask.t) : M MarketingTask.t :=
  λ w, match session w !! task_id with
       | Some obj => (Returned obj, w)
       | None => (Returned row, with_session (insert task_id row) w)
       end.

(** The surrogate key of the next inserted row. *)
Definition next_id (rows : gmap string MarketingTask.t) : nat :=
  S (map_fold (λ _ row m, max (MarketingTask.id row) m) 0 rows).

(** [db.add(task); await db.flush()]: the INSERT assigns the surrogate key
    and the server-side creation time; the unique index rejects a taken
    identifier. *)
Definition add_flush (task_id topic status : string) (language : option string)
  : M unit :=
  reach_store;;
  act (λ w,
    match store w !! task_id with
    | Some _ => (Raised "UNIQUE constraint failed: marketing_tasks.task_id", w)
    | None =>
        let task :=
          {| MarketingTask.id := next_id (store w);
             MarketingTask.task_id := task_id;
             MarketingTask.topic := topic;
             MarketingTask.status := status;
             MarketingTask.created_at := clock w;
             MarketingTask.completed_at := None;
             MarketingTask.result := None;
             MarketingTask.content_strategy := None;
             MarketingTask.social_media_posts := None;
             MarketingTask.blog_outline := None;
             MarketingTask.campaign_ideas := None;
             MarketingTask.error_message := None;
             MarketingTask.language := language |} in
        (Returned (), with_session (insert task_id task) w)
    end).

(** [delete(MarketingTask).where(task_id == ...)], synchronised with the
    session. *)
Definition execute_delete (task_id : string) : M unit :=
  reach_store;;
  modify (λ w, with_session (delete task_id) (with_store (delete task_id) w)).

(** [order_by(created_at.desc())] *)
Definition created_desc (a b : string * MarketingTask.t) : Prop :=
  MarketingTask.created_at b.2 ≤ MarketingTask.created_at a.2.

#[global] Instance created_desc_dec a b : Decision (created_desc a b).
Proof. unfold created_desc. apply _. Defined.

#[global] Instance created_desc_total : Total created_desc.
Proof. intros a b. unfold created_desc. lia. Qed.

Definition select_all_ordered : M (list (string * MarketingTask.t)) :=
  reach_store;;
  act (λ w, (Returned (merge_sort created_desc (map_to_list (store w))), w)).

(** ** The cancellation registry *)

(** [self._running_tasks[task_id] = flag] *)
Definition running_set (task_id : string) (flag : bool) : M unit :=
  modify (with_running (insert task_id flag)).

(** [self._running_tasks.get(task_id, dflt)] *)
Definition running_get (task_id : string) (dflt : bool) : M bool := λ w,
  (Returned (default dflt (_running_tasks w !! task_id)), w).

(** [self._running_tasks.pop(task_id, None)] *)
Definition running_pop (task_id : string) : M unit :=
  modify (with_running (delete task_id)).

(** What requests served while a background execution is suspended do to
    the registry (cancel clears the flag, delete removes the entry): once
    while the in_progress status is being committed, once while the
    pipeline runs.  Their own writes to the store are not interleaved. *)
Record Concurrency := {
  at_commit : gmap string bool → gmap string bool;
  during_pipeline : gmap string bool → gmap string bool;
}.

Definition suspended (others : gmap string bool → gmap string bool) : M unit :=
  modify (with_running others).

Fixpoint for_each {A} (items : list A) (body : A → M unit) : M unit :=
  match items with
  | [] => mret ()
  | x :: rest => body x;; for_each rest body
  end.

(** What the framework sends for a handler: its return value with status
    200, or status 500 when the handler raises. *)
Inductive Response (A : Type) : Type :=
  | Status200 (body : A)
  | Status500 (detail : string).
Arguments Status200 {A} body.
Arguments Status500 {A} detail.

Definition respond {A} (handler : M A) (w : World) : Response A * World :=
  match handler w with
  | (Returned body, w') => (Status200 body, w')
  | (Raised e, w') => (Status500 e, w')
  end.

(** ** The task orchestration service (task_service.py) *)

Section TaskService.
Variable L : CrewLib.
Variable settings : Settings.
Variable others : Concurrency.

Definition return_task (task_id : string) : M (option MarketingTask.t) :=
  task ← deref task_id; mret (Some task).

(** lines 24-45; [uuid4] is the text of the identifier drawn by
    [uuid.uuid4()]. *)
Definition create_task (uuid4 topic : string) (language : option string)
  : M MarketingTask.t :=
  let task_id := uuid4 in
  add_flush task_id topic (value PENDING) language;;
  commit;;
  refresh task_id;;
  deref task_id.

(** lines 47-52 *)
Definition get_task (task_id : string) : M (option MarketingTask.t) :=
  reach_store;;
  act (λ w, match store w !! task_id with
            | None => (Returned None, w)
            | Some row =>
                match load task_id row w with
                | (Returned task, w') => (Returned (Some task), w')
                | (Raised e, w') => (Raised e, w')
                end
            end).

(** The call of the pipeline service, lines 106-109.  The registry may
    have changed by the time the call returns: the checkpoint after it
    reads the flag again. *)
Definition call_pipeline (topic : string) (language : option string)
  : M Bundle.t :=
  suspended (during_pipeline others);;
  lift (execute_marketing_task L settings topic language).

(** lines 77-148 *)
Definition execute_task (task_id : string) : M (option MarketingTask.t) :=
  found ← get_task task_id;
  match found with
  | None => mret None
  | Some task =>
    if String.eqb (MarketingTask.status task) (value CANCELLED)
    then mret (Some task)
    else
      running_set task_id true;;
      setattr task_id (MarketingTask.set_status (value IN_PROGRESS));;
      commit;;
      suspended (at_commit others);;
      try_exceptM
        (wanted ← running_get task_id false;
         if negb wanted then
           setattr task_id (MarketingTask.set_status (value CANCELLED));;
           now ← datetime_now;
           setattr task_id (MarketingTask.set_completed_at (Some now));;
           setattr task_id
             (MarketingTask.set_error_message
                (Some "Task was cancelled before execution"));;
           commit;;
           return_task task_id
         else
           task ← deref task_id;
           result ← call_pipeline (MarketingTask.topic task)
                      (MarketingTask.language task);
           wanted ← running_get task_id false;
           if negb wanted then
             setattr task_id (MarketingTask.set_status (value CANCELLED));;
             now ← datetime_now;
             setattr task_id (MarketingTask.set_completed_at (Some now));;
             setattr task_id
               (MarketingTask.set_error_message
                  (Some "Task was cancelled during execution"));;
             commit;;
             running_pop task_id;;
             return_task task_id
           else
             setattr task_id
               (MarketingTask.set_status
                  (Bundle.get (Bundle.status result) (value FAILED)));;
             now ← datetime_now;
             setattr task_id (MarketingTask.set_completed_at (Some now));;
             setattr task_id
               (MarketingTask.set_result
                  (Some (Bundle.get (Bundle.result result) "")));;
             setattr task_id
               (MarketingTask.set_content_strategy
                  (Bundle.get (Bundle.content_strategy result) None));;
             setattr task_id
               (MarketingTask.set_social_media_posts
                  (Some (py_join (String newline "")
                           (Bundle.get (Bundle.social_media_posts result) []))));;
             setattr task_id
               (MarketingTask.set_blog_outline
                  (Bundle.get (Bundle.blog_outline result) None));;
             setattr task_id
               (MarketingTask.set_campaign_ideas
                  (Some (py_join (String newline "")
                           (Bundle.get (Bundle.campaign_ideas result) []))));;
             setattr task_id
               (MarketingTask.set_error_message (Bundle.error_message result));;
             commit;;
             refresh task_id;;
             running_pop task_id;;
             return_task task_id)
        (λ e,
           wanted ← running_get task_id false;
           (if negb wanted then
              setattr task_id (MarketingTask.set_status (value CANCELLED));;
              setattr task_id
                (MarketingTask.set_error_message (Some "Task was cancelled"))
            else
              setattr task_id (MarketingTask.set_status (value FAILED));;
              setattr task_id (MarketingTask.set_error_message (Some e)));;
           now ← datetime_now;
           setattr task_id (MarketingTask.set_completed_at (Some now));;
           commit;;
           running_pop task_id;;
           return_task task_id)
  end.

(** lines 54-75 *)
Definition execute_task_async (task_id : string) : M unit :=
  new_session;;
  try_exceptM
    (execute_task task_id;; mret ())
    (λ e,
       try_exceptM
         (found ← get_task task_id;
          match found with
          | Some _ =>
              setattr task_id (MarketingTask.set_status (value FAILED));;
              setattr task_id
                (MarketingTask.set_error_message
                   (Some ("Execution error: " +:+ e)));;
              now ← datetime_now;
              setattr task_id (MarketingTask.set_completed_at (Some now));;
              commit
          | None => mret ()
          end)
         (λ _, mret ())).

(** lines 150-172 *)
Definition cancel_task (task_id : string) : M (option MarketingTask.t) :=
  found ← get_task task_id;
  match found with
  | None => mret None
  | Some task =>
    if negb (String.eqb (MarketingTask.status task) (value PENDING)
             || String.eqb (MarketingTask.status task) (value IN_PROGRESS))
    then mret (Some task)
    else
      running_set task_id false;;
      setattr task_id (MarketingTask.set_status (value CANCELLED));;
      now ← datetime_now;
      setattr task_id (MarketingTask.set_completed_at (Some now));;
      setattr task_id
        (MarketingTask.set_error_message (Some "Task was cancelled by user"));;
      commit;;
      refresh task_id;;
      return_task task_id
  end.

(** lines 174-182 *)
Definition get_all_tasks : M (list MarketingTask.t) :=
  rows ← select_all_ordered;
  for_each rows (λ '(task_id, row), load task_id row;; mret ());;
  for_each rows (λ '(task_id, _), refresh task_id);;
  mapM (λ '(task_id, _), deref task_id) rows.

(** lines 184-203 *)
Definition delete_task (task_id : string) : M bool :=
  found ← get_task task_id;
  match found with
  | None => mret false
  | Some task =>
      (if String.eqb (MarketingTask.status task) (value PENDING)
          || String.eqb (MarketingTask.status task) (value IN_PROGRESS)
       then running_set task_id false
       else mret ());;
      running_pop task_id;;
      execute_delete task_id;;
      commit;;
      mret true
  end.

(** [text.split(newline) if text else None] *)
Definition split_if_any (text : option string) : option (list string) :=
  if truthy text then py_split newline <$> text else None.

(** lines 205-218 *)
Definition task_to_result (task : MarketingTask.t) : outcome TaskResult.t :=
  status ← TaskStatus_of (MarketingTask.status task);
  mret {| TaskResult.task_id := MarketingTask.task_id task;
          TaskResult.topic := MarketingTask.topic task;
          TaskResult.status := status;
          TaskResult.created_at := MarketingTask.created_at task;
          TaskResult.completed_at := MarketingTask.completed_at task;
          TaskResult.content_strategy := MarketingTask.content_strategy task;
          TaskResult.social_media_posts :=
            split_if_any (MarketingTask.social_media_posts task);
          TaskResult.blog_outline := MarketingTask.blog_outline task;
          TaskResult.campaign_ideas :=
            split_if_any (MarketingTask.campaign_ideas task);
          TaskResult.error_message := MarketingTask.error_message task |}.

(** ** The HTTP API: GET /tasks (main.py, lines 117-128) *)

Definition list_tasks : M (list TaskResult.t) :=
  new_session;;
  try_exceptM
    (tasks ← get_all_tasks;
     lift (mapM task_to_result tasks))
    (λ e, mret []).

End TaskService.

(** ** Proof automation for running operations *)

Ltac unfold_ops :=
  unfold return_task, commit, refresh, setattr, running_set, running_get,
    running_pop, suspended, deref, load, datetime_now, reach_store,
    execute_delete, modify, act, lift, try_exceptM, new_session;
  unfold mbind, M_bind, mret, M_ret.

Ltac norm_maps :=
  repeat first
    [ rewrite lookup_insert_eq | rewrite lookup_empty | rewrite alter_insert_eq
    | rewrite insert_insert_eq | rewrite lookup_delete_eq
    | rewrite delete_insert_eq | rewrite <- insert_union_l
    | rewrite (left_id_L ∅ (∪)) ].

Ltac run :=
  repeat (progress (unfold with_store, with_session, with_running; cbn;
                    norm_maps)).

Ltac open_world w :=
  destruct w as [rows fault objs registry now]; simpl in *; subst.

(** ** Scenarios: concrete libraries, settings and worlds *)

Module Scenario.

(** A library whose constructors accept everything and whose pipeline run
    has a scripted outcome. *)
Definition scripted_lib (script : outcome string) : CrewLib :=
  {| Agent := AgentArgs;
     Task := TaskArgs AgentArgs;
     Crew := list (TaskArgs AgentArgs);
     new_Agent := Returned;
     new_Task := Returned;
     new_Crew := λ _ tasks _ _, Returned tasks;
     kickoff_str := λ _, script |}.

(** A library whose [Agent] constructor rejects its arguments. *)
Definition rejecting_lib (e : string) : CrewLib :=
  {| Agent := AgentArgs;
     Task := TaskArgs AgentArgs;
     Crew := list (TaskArgs AgentArgs);
     new_Agent := λ _, Raised e;
     new_Task := Returned;
     new_Crew := λ _ tasks _ _, Returned tasks;
     kickoff_str := λ _, Returned "" |}.

Definition en : Settings := {| app_language := "en" |}.

(** No request is served while the execution is suspended. *)
Definition quiet : Concurrency :=
  {| at_commit := λ registry, registry;
     during_pipeline := λ registry, registry |}.


Definition row_t1 (status : string) : MarketingTask.t :=
  {| MarketingTask.id := 1;
     MarketingTask.task_id := "t1";
     MarketingTask.topic := "Launch eco-friendly product line";
     MarketingTask.status := status;
     MarketingTask.created_at := 5;
     MarketingTask.completed_at := None;
     MarketingTask.result := None;
     MarketingTask.content_strategy := None;
     MarketingTask.social_media_posts := None;
     MarketingTask.blog_outline := None;
     MarketingTask.campaign_ideas := None;
     MarketingTask.error_message := None;
     MarketingTask.language := None |}.

(** A row of a task that completed at tick 7. *)
Definition done_t1 : MarketingTask.t :=
  MarketingTask.set_result (Some "Our strategy")
    (MarketingTask.set_completed_at (Some 7) (row_t1 "completed")).

(** A row whose stored text fields hold three lines. *)
Definition three_lines : string :=
  "line1" +:+ String newline ("line2" +:+ String newline "line3").

Definition lines_t1 : MarketingTask.t :=
  MarketingTask.set_campaign_ideas (Some three_lines)
    (MarketingTask.set_social_media_posts (Some three_lines) done_t1).

(** A transcript with nine lines that name a platform and one that does
    not. *)
Definition nine_posts : string :=
  py_join (String newline "")
    ["Instagram: Excited to launch!"; "Random filler line";
     "Twitter: New line coming"; "  LinkedIn: Professional announcement";
     "Instagram: Behind the scenes"; "Twitter: Join us"; "instagram reel";
     "Follow on TWITTER"; "Instagram: Last call"; "Twitter: Thank you"].

Definition world_of (row : MarketingTask.t) : World :=
  {| store := {[ "t1" := row ]};
     store_fault := None;
     session := ∅;
     _running_tasks := ∅;
     clock := 9 |}.

Definition unreachable_world : World :=
  {| store := {[ "t1" := row_t1 "pending" ]};
     store_fault := Some "unable to open database file";
     session := ∅;
     _running_tasks := ∅;
     clock := 9 |}.

End Scenario.

Import Scenario.
(** ** The HTTP API: the task endpoints (main.py, lines 74-154)

    An endpoint hands the framework a reply: the value it returns (status
    200) or the [HTTPException] it raises (status code and detail).  An
    exception it does not handle is answered with status 500 by the
    framework.  Each request gets a session of its own from [get_db]. *)

Inductive Reply (A : Type) : Type :=
  | Reply200 (body : A)
  | ReplyError (status_code : nat) (detail : string).
Arguments Reply200 {A} body.
Arguments ReplyError {A} status_code detail.

Definition serve {A} (endpoint : M (Reply A)) (w : World) : Reply A * World :=
  match endpoint w with
  | (Returned reply, w') => (reply, w')
  | (Raised _, w') => (ReplyError 500 "Internal Server Error", w')
  end.

(** The creation response (shared/models.py, lines 27-34). *)
Module MarketingTaskResponse.
Record t := {
  task_id : string;
  topic : string;
  status : TaskStatus;
  created_at : nat;
  result : option Bundle.t;
}.
End MarketingTaskResponse.

(** [await db.rollback()]: the session gives up what it holds. *)
Definition rollback : M unit := modify (with_session (λ _, ∅)).

Module Api.

(** POST /tasks, lines 74-101.  With its reply the endpoint hands over the
    identifiers it scheduled [execute_task_async] for; an [HTTPException]
    carries none. *)
Definition create_task (uuid4 topic : string) (language : option string)
  : M (Reply MarketingTaskResponse.t * list string) :=
  new_session;;
  try_exceptM
    (task ← create_task uuid4 topic language;
     let scheduled := [MarketingTask.task_id task] in
     status ← lift (TaskStatus_of (MarketingTask.status task));
     mret (Reply200
             {| MarketingTaskResponse.task_id := MarketingTask.task_id task;
                MarketingTaskResponse.topic := MarketingTask.topic task;
                MarketingTaskResponse.status := status;
                MarketingTaskResponse.created_at :=
                  MarketingTask.created_at task;
                MarketingTaskResponse.result := None |},
           scheduled))
    (λ e,
       rollback;;
       mret (ReplyError 500 ("Error creating task: " +:+ e), [])).

(** GET /tasks/{task_id}, lines 104-114 *)
Definition get_task (task_id : string) : M (Reply TaskResult.t) :=
  new_session;;
  task ← get_task task_id;
  match task with
  | None => mret (ReplyError 404 "Task not found")
  | Some task =>
      record ← lift (task_to_result task);
      mret (Reply200 record)
  end.

(** POST /tasks/{task_id}/cancel, lines 131-141 *)
Definition cancel_task (task_id : string) : M (Reply TaskResult.t) :=
  new_session;;
  task ← cancel_task task_id;
  match task with
  | None => mret (ReplyError 404 "Task not found")
  | Some task =>
      record ← lift (task_to_result task);
      mret (Reply200 record)
  end.

(** DELETE /tasks/{task_id}, lines 144-154; the body is the message and the
    identifier. *)
Definition delete_task (task_id : string) : M (Reply (string * string)) :=
  new_session;;
  success ← delete_task task_id;
  if negb success then mret (ReplyError 404 "Task not found")
  else mret (Reply200 ("Task deleted successfully", task_id)).

End Api.

(** The framework runs the scheduled background work after the reply is
    sent. *)
Definition run_background (L : CrewLib) (settings : Settings)
    (others : Concurrency) (scheduled : list string) : M unit :=
  for_each scheduled (execute_task_async L settings others).

(** ** The operator console (frontend/streamlit_app.py)

    The console works on the task objects of the list reply, the JSON form
    of the result records: [task.get('task_id')] is the record's
    identifier, [task['status']] the text of its status. *)

Module Console.

(** The deduplication loop of the task list view, lines 471-479.  The
    insertion-ordered dict is a list of bindings with distinct keys. *)
Definition has_key {A} (key : string) (bindings : list (string * A)) : bool :=
  existsb (λ binding, String.eqb binding.1 key) bindings.

Definition deduplicate (tasks : list TaskResult.t) : list TaskResult.t :=
  match tasks with
  | [] => tasks
  | _ =>
      let unique_tasks_dict :=
        fold_left
          (λ unique_tasks_dict task,
             let task_id := TaskResult.task_id task in
             if truthy (Some task_id) then
               if negb (has_key task_id unique_tasks_dict)
               then unique_tasks_dict ++ [(task_id, task)]
               else unique_tasks_dict
             else unique_tasks_dict)
          tasks [] in
      unique_tasks_dict.*2
  end.

(** [task['status'] in statuses] *)
Definition status_in (statuses : list string) (task : TaskResult.t) : bool :=
  existsb (String.eqb (value (TaskResult.status task))) statuses.

(** The four groups of the task list view, lines 497-500. *)
Definition in_progress_tasks (tasks : list TaskResult.t) : list TaskResult.t :=
  List.filter (status_in ["pending"; "in_progress"]) tasks.
Definition completed_tasks (tasks : list TaskResult.t) : list TaskResult.t :=
  List.filter (λ t, String.eqb (value (TaskResult.status t)) "completed") tasks.
Definition failed_tasks (tasks : list TaskResult.t) : list TaskResult.t :=
  List.filter (λ t, String.eqb (value (TaskResult.status t)) "failed") tasks.
Definition cancelled_tasks (tasks : list TaskResult.t) : list TaskResult.t :=
  List.filter (λ t, String.eqb (value (TaskResult.status t)) "cancelled") tasks.

(** The buttons a task card offers, lines 321 and 331. *)
Definition can_cancel (task : TaskResult.t) : bool :=
  status_in ["pending"; "in_progress"] task.
Definition can_delete (task : TaskResult.t) : bool :=
  status_in ["completed"; "failed"; "cancelled"] task.

End Console.
(** * Properties *)

(** ** Text operations *)

Section PyStrFacts.

Lemma append_cons (c : ascii) (a b : string) :
  String c a +:+ b = String c (a +:+ b).
Proof. reflexivity. Qed.

Lemma prefix_spec (p s : string) :
  String.prefix p s = true ↔ ∃ post, s = p +:+ post.
Proof.
  revert s. induction p as [|c p IH]; intros [|c' s]; simpl.
  - split; [intros _; by exists "" | done].
  - split; [intros _; by exists (String c' s) | done].
  - split; [done | by intros [post ?]].
  - destruct (Ascii.ascii_dec c c') as [->|Hne].
    + rewrite IH. split; intros [post Hpost]; exists post;
        rewrite append_cons in *; congruence.
    + split; [done | intros [post Hpost]; rewrite append_cons in *; congruence].
Qed.

Lemma py_in_spec (needle hay : string) :
  py_in needle hay = true ↔ is_substring needle hay.
Proof.
  unfold is_substring. induction hay as [|c hay IH].
  - change (py_in needle "") with (String.prefix needle "" || false).
    rewrite orb_false_r, prefix_spec. split.
    + intros [post Hpost]. by exists "", post.
    + intros [[|c pre] [post Hpost]]; [by exists post | done].
  - change (py_in needle (String c hay))
      with (String.prefix needle (String c hay) || py_in needle hay).
    rewrite orb_true_iff, prefix_spec, IH. split.
    + intros [[post Hpost] | (pre & post & Hpost)].
      * by exists "", post.
      * exists (String c pre), post. by rewrite append_cons, Hpost.
    + intros [[|c' pre] [post Hpost]].
      * left. by exists post.
      * right. exists pre, post. rewrite append_cons in Hpost. congruence.
Qed.

Lemma py_split_nonempty sep s : py_split sep s ≠ [].
Proof.
  destruct s as [|c s]; simpl; [done |].
  destruct (Ascii.eqb c sep); [done |]. by destruct (py_split sep s).
Qed.

(** Gluing the fields back with the separator gives the text again. *)
Lemma py_join_split sep s : py_join (String sep "") (py_split sep s) = s.
Proof.
  induction s as [|c s IH]; simpl; [done |].
  destruct (Ascii.eqb_spec c sep) as [->|Hne].
  - pose proof (py_split_nonempty sep s) as Hne.
    destruct (py_split sep s) as [|f fs] eqn:E; [done |].
    simpl in *. by rewrite IH.
  - pose proof (py_split_nonempty sep s) as Hne'.
    destruct (py_split sep s) as [|f fs] eqn:E; [done |].
    simpl in *. destruct fs as [|f' fs]; simpl in *; by rewrite <- IH.
Qed.

(** No field of a split holds the separator. *)
Lemma py_split_no_sep sep s field :
  field ∈ py_split sep s → py_in (String sep "") field = false.
Proof.
  revert field. induction s as [|c s IH]; intros field; simpl.
  - intros ->%list_elem_of_singleton. done.
  - destruct (Ascii.eqb_spec c sep) as [->|Hne].
    + intros [->|Hin]%elem_of_cons; [done | by apply IH].
    + pose proof (py_split_nonempty sep s) as Hne'.
      destruct (py_split sep s) as [|f fs] eqn:E; [done |].
      intros [->|Hin]%elem_of_cons.
      * assert (py_in (String sep "") f = false) as Hf by (apply IH; left).
        change (py_in (String sep "") (String c f))
          with (String.prefix (String sep "") (String c f)
                || py_in (String sep "") f).
        rewrite Hf, orb_false_r. simpl.
        by destruct (Ascii.ascii_dec sep c) as [->|].
      * apply IH. by right.
Qed.

(** The accumulating loop of the two line filters. *)
Lemma filter_loop {A B} (keep : A → bool) (f : A → B) (items : list A) (acc : list B) :
  fold_left (λ acc x, if keep x then acc ++ [f x] else acc) items acc
  = acc ++ (f <$> List.filter keep items).
Proof.
  revert acc. induction items as [|x items IH]; intros acc; simpl.
  - by rewrite app_nil_r.
  - rewrite IH. destruct (keep x); simpl; [by rewrite <- app_assoc | done].
Qed.

End PyStrFacts.

(** ** The extraction heuristics *)

Lemma mentions_platform_spec (line : string) :
  mentions_platform line = true
  ↔ ∃ platform, platform ∈ platforms ∧ is_substring platform (py_lower line).
Proof.
  unfold mentions_platform. rewrite existsb_exists. split.
  - intros (p & Hin & Hp). exists p. split; [by apply list_elem_of_In |].
    by apply py_in_spec.
  - intros (p & Hin & Hp). exists p. split; [by apply list_elem_of_In |].
    by apply py_in_spec.
Qed.

Lemma mentions_campaign_spec (line : string) :
  mentions_campaign line = true
  ↔ is_substring "campaign" (py_lower line) ∨ is_substring "idea" (py_lower line).
Proof. unfold mentions_campaign. by rewrite orb_true_iff, !py_in_spec. Qed.

Lemma extract_social_posts_filter (result : string) :
  _extract_social_posts result
  = take 7 (py_strip <$> List.filter mentions_platform (py_split newline result)).
Proof. unfold _extract_social_posts. by rewrite filter_loop. Qed.

Lemma extract_campaign_ideas_filter (result : string) :
  _extract_campaign_ideas result
  = take 5 (py_strip <$> List.filter mentions_campaign (py_split newline result)).
Proof. unfold _extract_campaign_ideas. by rewrite filter_loop. Qed.

(** C4, as stated, fails: the social-posts artifact of a transcript whose
    only line is indented is not the sequence of matching lines, because
    each kept line is stored with its surrounding white space removed. *)
Lemma C4_posts_are_not_the_lines :
  _extract_social_posts "  Instagram rocks"
  ≠ take 7 (List.filter mentions_platform (py_split newline "  Instagram rocks")).
Proof. vm_compute. discriminate. Qed.

(** C4, amended: the content-strategy artifact is the whole transcript when
    its lowercase form contains "strategy" or "content" and absent
    otherwise; the blog-outline artifact likewise for "blog" or "outline";
    the social-posts artifact is, in original order, the white-space-stripped
    form of every line whose lowercase form contains one of the four
    platform names, cut to the first 7; the campaign-ideas artifact
    likewise for "campaign" or "idea", cut to the first 5.  The lines are
    the fields between newline characters: joined by newlines they give
    the transcript, and none of them holds a newline. *)
Theorem C4_extraction_contract (transcript : string) :
  let lines := py_split newline transcript in
  let mentions (word : string) := is_substring word (py_lower transcript) in
  py_join (String newline "") lines = transcript
  ∧ (∀ line, line ∈ lines → py_in (String newline "") line = false)
  ∧ (mentions "strategy" ∨ mentions "content"
     → _extract_content_strategy transcript = Some transcript)
  ∧ (¬ (mentions "strategy" ∨ mentions "content")
     → _extract_content_strategy transcript = None)
  ∧ (mentions "blog" ∨ mentions "outline"
     → _extract_blog_outline transcript = Some transcript)
  ∧ (¬ (mentions "blog" ∨ mentions "outline")
     → _extract_blog_outline transcript = None)
  ∧ _extract_social_posts transcript
    = take 7 (py_strip <$> List.filter mentions_platform lines)
  ∧ _extract_campaign_ideas transcript
    = take 5 (py_strip <$> List.filter mentions_campaign lines)
  ∧ (∀ line, mentions_platform line = true
       ↔ ∃ platform, platform ∈ ["instagram"; "twitter"; "linkedin"; "facebook"]
                     ∧ is_substring platform (py_lower line))
  ∧ (∀ line, mentions_campaign line = true
       ↔ is_substring "campaign" (py_lower line)
         ∨ is_substring "idea" (py_lower line)).
Proof.
  intros lines mentions. subst lines mentions. cbv beta.
  split; [apply py_join_split |].
  split; [apply py_split_no_sep |].
  unfold _extract_content_strategy, _extract_blog_outline.
  repeat split.
  - intros H. rewrite <- !py_in_spec, <- orb_true_iff in H. by rewrite H.
  - intros H. rewrite <- !py_in_spec, <- orb_true_iff in H.
    by apply not_true_is_false in H as ->.
  - intros H. rewrite <- !py_in_spec, <- orb_true_iff in H. by rewrite H.
  - intros H. rewrite <- !py_in_spec, <- orb_true_iff in H.
    by apply not_true_is_false in H as ->.
  - apply extract_social_posts_filter.
  - apply extract_campaign_ideas_filter.
  - by apply mentions_platform_spec.
  - by apply mentions_platform_spec.
  - by apply mentions_campaign_spec.
  - by apply mentions_campaign_spec.
Qed.

Lemma C4_nine_matching_lines :
  _extract_social_posts nine_posts
  = ["Instagram: Excited to launch!"; "Twitter: New line coming";
     "LinkedIn: Professional announcement"; "Instagram: Behind the scenes";
     "Twitter: Join us"; "instagram reel"; "Follow on TWITTER"]
  ∧ _extract_content_strategy nine_posts = None.
Proof.
  destruct (C4_extraction_contract nine_posts)
    as (_ & _ & _ & Hstrategy & _ & _ & Hposts & _).
  split.
  - rewrite Hposts. reflexivity.
  - apply Hstrategy. rewrite <- !py_in_spec. by intros [|].
Defined.

(** ** Running the operations *)

(** The row a user cancellation leaves. *)
Lemma cancel_task_cancellable (task_id : string) (w : World) (row : MarketingTask.t) :
  store_fault w = None → session w = ∅ → store w !! task_id = Some row →
  MarketingTask.status row = value PENDING
  ∨ MarketingTask.status row = value IN_PROGRESS →
  let row' :=
    MarketingTask.set_error_message (Some "Task was cancelled by user")
      (MarketingTask.set_completed_at (Some (clock w))
         (MarketingTask.set_status (value CANCELLED) row)) in
  cancel_task task_id w
  = (Returned (Some row'),
     with_running (insert task_id false)
       (with_session (λ _, {[task_id := row']})
          (with_store (insert task_id row') w))).
Proof.
  intros Hf Hs Hrow Hst row'. open_world w.
  unfold cancel_task, get_task. unfold_ops. cbn. rewrite Hrow. run.
  destruct Hst as [Hst | Hst]; rewrite Hst; run; by rewrite insert_empty.
Qed.

Lemma cancel_task_not_cancellable (task_id : string) (w : World) (row : MarketingTask.t) :
  store_fault w = None → session w = ∅ → store w !! task_id = Some row →
  MarketingTask.status row ≠ value PENDING →
  MarketingTask.status row ≠ value IN_PROGRESS →
  cancel_task task_id w
  = (Returned (Some row), with_session (λ _, {[task_id := row]}) w).
Proof.
  intros Hf Hs Hrow Hp Hi. open_world w.
  unfold cancel_task, get_task. unfold_ops. cbn. rewrite Hrow. run.
  apply String.eqb_neq in Hp, Hi. cbn in Hp, Hi. rewrite Hp, Hi. run.
  by rewrite insert_empty.
Qed.

Lemma cancel_task_unknown (task_id : string) (w : World) :
  store_fault w = None → store w !! task_id = None →
  cancel_task task_id w = (Returned None, w).
Proof.
  intros Hf Hrow. open_world w.
  unfold cancel_task, get_task. unfold_ops. cbn. by rewrite Hrow.
Qed.

Section ExecuteTaskPaths.
Variable L : CrewLib.
Variable settings : Settings.
Variable others : Concurrency.
Variable task_id : string.
Variable w : World.
Variable row : MarketingTask.t.
Hypothesis reachable : store_fault w = None.
Hypothesis fresh_session : session w = ∅.
Hypothesis stored : store w !! task_id = Some row.

(** In the statements below, the registry at the checkpoint before the
    pipeline call is [at_commit others] of the registry with the flag set,
    and the registry at the checkpoint after it is [during_pipeline others]
    of that. *)

Lemma execute_task_already_cancelled :
  MarketingTask.status row = value CANCELLED →
  execute_task L settings others task_id w
  = (Returned (Some row), with_session (λ _, {[task_id := row]}) w).
Proof using reachable fresh_session stored.
  intros Hst. open_world w.
  unfold execute_task, get_task. unfold_ops. cbn. rewrite stored.
  run. rewrite Hst. run. by rewrite insert_empty.
Qed.

Lemma execute_task_cancelled_before :
  MarketingTask.status row ≠ value CANCELLED →
  default false (at_commit others (<[task_id:=true]> (_running_tasks w))
     !! task_id) = false →
  let row' :=
    MarketingTask.set_error_message (Some "Task was cancelled before execution")
      (MarketingTask.set_completed_at (Some (clock w))
         (MarketingTask.set_status (value CANCELLED) row)) in
  execute_task L settings others task_id w
  = (Returned (Some row'),
     with_running (λ _, at_commit others (<[task_id:=true]> (_running_tasks w)))
       (with_session (λ _, {[task_id := row']})
          (with_store (insert task_id row') w))).
Proof using reachable fresh_session stored.
  intros Hst Hflag row'. subst row'.
  apply String.eqb_neq in Hst. open_world w.
  unfold execute_task, get_task. unfold_ops. cbn. rewrite stored.
  run. cbn in Hst. rewrite Hst. run. rewrite Hflag. run.
  by rewrite insert_empty.
Qed.

Lemma execute_task_cancelled_during (bundle : Bundle.t) :
  MarketingTask.status row ≠ value CANCELLED →
  default false (at_commit others (<[task_id:=true]> (_running_tasks w))
     !! task_id) = true →
  execute_marketing_task L settings (MarketingTask.topic row)
    (MarketingTask.language row) = Returned bundle →
  default false (during_pipeline others
       (at_commit others (<[task_id:=true]> (_running_tasks w)))
     !! task_id) = false →
  let row' :=
    MarketingTask.set_error_message (Some "Task was cancelled during execution")
      (MarketingTask.set_completed_at (Some (clock w))
         (MarketingTask.set_status (value CANCELLED) row)) in
  execute_task L settings others task_id w
  = (Returned (Some row'),
     with_running (λ _, delete task_id
                  (during_pipeline others
       (at_commit others (<[task_id:=true]> (_running_tasks w)))))
       (with_session (λ _, {[task_id := row']})
          (with_store (insert task_id row') w))).
Proof using reachable fresh_session stored.
  intros Hst Hflag Hrun Hflag' row'. subst row'.
  apply String.eqb_neq in Hst. open_world w.
  unfold execute_task, get_task, call_pipeline. unfold_ops. cbn. rewrite stored.
  run. cbn in Hst. rewrite Hst. run. rewrite Hflag. run.
  rewrite Hrun. run. rewrite Hflag'. run.
  by rewrite insert_empty.
Qed.

Lemma execute_task_persisted (bundle : Bundle.t) :
  MarketingTask.status row ≠ value CANCELLED →
  default false (at_commit others (<[task_id:=true]> (_running_tasks w))
     !! task_id) = true →
  execute_marketing_task L settings (MarketingTask.topic row)
    (MarketingTask.language row) = Returned bundle →
  default false (during_pipeline others
       (at_commit others (<[task_id:=true]> (_running_tasks w)))
     !! task_id) = true →
  let row' :=
    {| MarketingTask.id := MarketingTask.id row;
       MarketingTask.task_id := MarketingTask.task_id row;
       MarketingTask.topic := MarketingTask.topic row;
       MarketingTask.status :=
         Bundle.get (Bundle.status bundle) (value FAILED);
       MarketingTask.created_at := MarketingTask.created_at row;
       MarketingTask.completed_at := Some (clock w);
       MarketingTask.result := Some (Bundle.get (Bundle.result bundle) "");
       MarketingTask.content_strategy :=
         Bundle.get (Bundle.content_strategy bundle) None;
       MarketingTask.social_media_posts :=
         Some (py_join (String newline "")
                 (Bundle.get (Bundle.social_media_posts bundle) []));
       MarketingTask.blog_outline :=
         Bundle.get (Bundle.blog_outline bundle) None;
       MarketingTask.campaign_ideas :=
         Some (py_join (String newline "")
                 (Bundle.get (Bundle.campaign_ideas bundle) []));
       MarketingTask.error_message := Bundle.error_message bundle;
       MarketingTask.language := MarketingTask.language row |} in
  execute_task L settings others task_id w
  = (Returned (Some row'),
     with_running (λ _, delete task_id
                  (during_pipeline others
       (at_commit others (<[task_id:=true]> (_running_tasks w)))))
       (with_session (λ _, {[task_id := row']})
          (with_store (insert task_id row') w))).
Proof using reachable fresh_session stored.
  intros Hst Hflag Hrun Hflag' row'. subst row'.
  apply String.eqb_neq in Hst. open_world w.
  unfold execute_task, get_task, call_pipeline. unfold_ops. cbn. rewrite stored.
  run. cbn in Hst. rewrite Hst. run. rewrite Hflag. run.
  rewrite Hrun. run. rewrite Hflag'. run.
  by rewrite insert_empty.
Qed.

Lemma execute_task_pipeline_raised (e : string) :
  MarketingTask.status row ≠ value CANCELLED →
  default false (at_commit others (<[task_id:=true]> (_running_tasks w))
     !! task_id) = true →
  execute_marketing_task L settings (MarketingTask.topic row)
    (MarketingTask.language row) = Raised e →
  let row' :=
    MarketingTask.set_completed_at (Some (clock w))
      (if default false (during_pipeline others
       (at_commit others (<[task_id:=true]> (_running_tasks w)))
     !! task_id)
       then MarketingTask.set_error_message (Some e)
              (MarketingTask.set_status (value FAILED) row)
       else MarketingTask.set_error_message (Some "Task was cancelled")
              (MarketingTask.set_status (value CANCELLED) row)) in
  execute_task L settings others task_id w
  = (Returned (Some row'),
     with_running (λ _, delete task_id
                  (during_pipeline others
       (at_commit others (<[task_id:=true]> (_running_tasks w)))))
       (with_session (λ _, {[task_id := row']})
          (with_store (insert task_id row') w))).
Proof using reachable fresh_session stored.
  intros Hst Hflag Hrun row'. subst row'.
  apply String.eqb_neq in Hst. open_world w.
  unfold execute_task, get_task, call_pipeline. unfold_ops. cbn. rewrite stored.
  run. cbn in Hst. rewrite Hst. run. rewrite Hflag. run.
  rewrite Hrun. run.
  destruct (default false (during_pipeline _ _ !! _)); run;
    by rewrite insert_empty.
Qed.

End ExecuteTaskPaths.

(** ** Listing the rows *)

Lemma bind_run {A B} (m : M A) (f : A → M B) (w : World) :
  (m ≫= f) w
  = match m w with
    | (Returned a, w') => f a w'
    | (Raised e, w') => (Raised e, w')
    end.
Proof. reflexivity. Qed.

Lemma for_each_load (rows : list (string * MarketingTask.t)) (w : World) :
  ∃ w', for_each rows (λ '(task_id, row), load task_id row;; mret ()) w
        = (Returned (), w')
        ∧ store w' = store w ∧ store_fault w' = store_fault w
        ∧ _running_tasks w' = _running_tasks w.
Proof.
  set (body := λ '(task_id, row), load task_id row;; mret ()).
  revert w. induction rows as [|[k r] rows IH]; intros w.
  - by exists w.
  - cbn [for_each]. rewrite bind_run. unfold body at 1.
    rewrite bind_run. unfold load at 1, mret, M_ret.
    destruct (session w !! k);
      [destruct (IH w) as (w' & -> & ?) |
       destruct (IH (with_session (insert k r) w)) as (w' & -> & ?)];
      by exists w'.
Qed.

Lemma for_each_refresh (rows : list (string * MarketingTask.t)) (w : World) :
  store_fault w = None →
  (∀ k r, (k, r) ∈ rows → store w !! k = Some r) →
  ∃ w', for_each rows (λ '(task_id, _), refresh task_id) w = (Returned (), w')
        ∧ store w' = store w ∧ store_fault w' = store_fault w
        ∧ _running_tasks w' = _running_tasks w
        ∧ ∀ k r, store w !! k = Some r →
                 session w !! k = Some r ∨ (k, r) ∈ rows →
                 session w' !! k = Some r.
Proof.
  revert w. induction rows as [|[k r] rows IH]; intros w Hf Hrows.
  - exists w. repeat split; try done. intros k r _ [?|Hin]; [done|].
    by apply elem_of_nil in Hin.
  - cbn [for_each]. rewrite bind_run. unfold refresh at 1.
    rewrite bind_run. unfold reach_store, act. rewrite Hf.
    rewrite (Hrows k r) by left.
    assert (∀ k' r', (k', r') ∈ rows → store w !! k' = Some r') as Hrest
      by (intros k' r' Hin; apply Hrows; by right).
    destruct (IH (with_session (insert k r) w) Hf Hrest)
      as (w' & -> & Hst & Hfl & Hreg & Hs).
    exists w'. split; [done |]. split; [exact Hst |]. split; [cbn in Hfl; congruence |].
    split; [exact Hreg |].
    intros k' r' Hk' Hor. apply Hs; [done |].
    destruct (decide (k' = k)) as [->|Hne].
    + left. cbn. rewrite lookup_insert_eq. f_equal.
      rewrite (Hrows k r) in Hk' by left. congruence.
    + destruct Hor as [Hsess | [Heq | Hin]%elem_of_cons].
      * left. cbn. by rewrite lookup_insert_ne.
      * congruence.
      * by right.
Qed.

Lemma mapM_deref (rows : list (string * MarketingTask.t)) (w : World) :
  (∀ k r, (k, r) ∈ rows → session w !! k = Some r) →
  mapM (λ '(task_id, _), deref task_id) rows w = (Returned (rows.*2), w).
Proof.
  induction rows as [|[k r] rows IH]; intros Hrows; [done |].
  cbn [mapM]. rewrite bind_run. unfold deref at 1.
  rewrite (Hrows k r) by left.
  rewrite bind_run, IH; [done |].
  intros k' r' Hin. apply Hrows. by right.
Qed.

(** With the store reachable, listing returns every row, newest first, and
    changes neither the store nor the registry. *)
Lemma get_all_tasks_reachable (w : World) :
  store_fault w = None →
  ∃ w', get_all_tasks w
        = (Returned ((merge_sort created_desc (map_to_list (store w))).*2), w')
        ∧ store w' = store w ∧ store_fault w' = store_fault w
        ∧ _running_tasks w' = _running_tasks w.
Proof.
  intros Hf. unfold get_all_tasks, select_all_ordered.
  rewrite !bind_run. unfold reach_store, act. rewrite Hf.
  set (rows := merge_sort created_desc (map_to_list (store w))).
  assert (∀ k r, (k, r) ∈ rows → store w !! k = Some r) as Hrows.
  { intros k r Hin. apply elem_of_map_to_list.
    by rewrite <- (merge_sort_Permutation created_desc). }
  rewrite bind_run.
  destruct (for_each_load rows w) as (w1 & -> & Hst1 & Hf1 & Hreg1).
  rewrite bind_run.
  assert (store_fault w1 = None) as Hf1' by congruence.
  assert (∀ k r, (k, r) ∈ rows → store w1 !! k = Some r) as Hrows1
    by (intros k r Hin; rewrite Hst1; by apply Hrows).
  destruct (for_each_refresh rows w1 Hf1' Hrows1)
    as (w2 & -> & Hst2 & Hf2 & Hreg2 & Hs).
  rewrite mapM_deref.
  - exists w2. repeat split; congruence.
  - intros k r Hin. apply Hs; [|by right]. rewrite Hst1. by apply Hrows.
Qed.

Lemma get_all_tasks_unreachable (w : World) (e : string) :
  store_fault w = Some e → get_all_tasks w = (Raised e, w).
Proof.
  intros Hf. unfold get_all_tasks, select_all_ordered.
  rewrite !bind_run. unfold reach_store, act. by rewrite Hf.
Qed.

Lemma outcome_bind_run {A B} (m : outcome A) (f : A → outcome B) :
  m ≫= f = match m with Returned a => f a | Raised e => Raised e end.
Proof. reflexivity. Qed.

Lemma mapM_Returned {A B} (f : A → outcome B) (items : list A) (results : list B) :
  mapM f items = Returned results
  ↔ Forall2 (λ x y, f x = Returned y) items results.
Proof.
  revert results. induction items as [|x items IH]; intros results.
  - cbn. split.
    + intros [= <-]. constructor.
    + by intros ->%Forall2_nil_inv_l.
  - change (mapM f (x :: items))
      with (y ← f x; ys ← mapM f items; mret (y :: ys)).
    rewrite outcome_bind_run. split.
    + destruct (f x) as [y|e] eqn:Hx; [|done]. rewrite outcome_bind_run.
      destruct (mapM f items) as [ys|e] eqn:Hxs; [|done].
      intros [= <-]. constructor; [done | by apply IH].
    + intros (y & ys & Hy & Hys & ->)%Forall2_cons_inv_l.
      rewrite Hy, outcome_bind_run. apply IH in Hys. by rewrite Hys.
Qed.

(** ** The claims *)

(** *** C1: what [execute_marketing_task] returns and raises *)

(** C1, as stated, fails: a failure while the pipeline is constructed is
    raised to the caller, not returned as a failed bundle. *)
Lemma C1_construction_failure_is_raised :
  execute_marketing_task (rejecting_lib "agent validation failed") en
    "Launch eco-friendly product line" None
  = Raised "agent validation failed".
Proof. reflexivity. Qed.

(** C1, amended: for every topic and optional language,
    [execute_marketing_task] returns a bundle with status "failed", the
    topic and the failure's textual description when running the
    constructed pipeline fails, and a bundle with status "completed", the
    topic, the raw combined text and the four extracted sub-artifacts when
    it succeeds; a failure while the pipeline is constructed is raised to
    the caller. *)
Theorem C1_execute_marketing_task_outcomes
    (L : CrewLib) (settings : Settings) (topic : string)
    (language : option string) :
  match create_marketing_crew L settings topic language with
  | Raised e => execute_marketing_task L settings topic language = Raised e
  | Returned crew =>
      match kickoff_str L crew with
      | Raised e =>
          execute_marketing_task L settings topic language
          = Returned {| Bundle.status := Some "failed";
                        Bundle.topic := Some topic;
                        Bundle.result := None;
                        Bundle.content_strategy := None;
                        Bundle.social_media_posts := None;
                        Bundle.blog_outline := None;
                        Bundle.campaign_ideas := None;
                        Bundle.error_message := Some e |}
      | Returned transcript =>
          execute_marketing_task L settings topic language
          = Returned {| Bundle.status := Some "completed";
                        Bundle.topic := Some topic;
                        Bundle.result := Some transcript;
                        Bundle.content_strategy :=
                          Some (_extract_content_strategy transcript);
                        Bundle.social_media_posts :=
                          Some (_extract_social_posts transcript);
                        Bundle.blog_outline :=
                          Some (_extract_blog_outline transcript);
                        Bundle.campaign_ideas :=
                          Some (_extract_campaign_ideas transcript);
                        Bundle.error_message := None |}
      end
  end.
Proof.
  unfold execute_marketing_task.
  destruct (create_marketing_crew L settings topic language) as [crew|e];
    [|done].
  rewrite outcome_bind_run. by destruct (kickoff_str L crew).
Qed.

(** *** C5: cancel task *)

(** C5: with the store reachable and a session of its own, cancel task on
    an existing row whose status is pending or in_progress stores the row
    with status cancelled, [completed_at] the current time and
    [error_message] "Task was cancelled by user" (no other column changes),
    returns that row and sets the registry flag of the identifier to false,
    leaving the other rows and flags as they were; on a row in any other
    status it returns the row and changes neither the store nor the
    registry; on an unknown identifier it returns absent. *)
Theorem C5_cancel_task (task_id : string) (w : World) :
  store_fault w = None → session w = ∅ →
  let returned := (cancel_task task_id w).1 in
  let w' := (cancel_task task_id w).2 in
  match store w !! task_id with
  | None => returned = Returned None ∧ w' = w
  | Some row =>
      if String.eqb (MarketingTask.status row) "pending"
         || String.eqb (MarketingTask.status row) "in_progress"
      then
        ∃ row', returned = Returned (Some row')
          ∧ store w' = <[task_id:=row']> (store w)
          ∧ _running_tasks w' = <[task_id:=false]> (_running_tasks w)
          ∧ MarketingTask.status row' = "cancelled"
          ∧ MarketingTask.completed_at row' = Some (clock w)
          ∧ MarketingTask.error_message row' = Some "Task was cancelled by user"
          ∧ MarketingTask.set_error_message (MarketingTask.error_message row)
              (MarketingTask.set_completed_at (MarketingTask.completed_at row)
                 (MarketingTask.set_status (MarketingTask.status row) row'))
            = row
      else
        returned = Returned (Some row)
        ∧ store w' = store w
        ∧ _running_tasks w' = _running_tasks w
  end.
Proof.
  intros Hf Hs returned w'. subst returned w'.
  destruct (store w !! task_id) as [row|] eqn:Hrow.
  - destruct (String.eqb_spec (MarketingTask.status row) "pending") as [Hp|Hp];
      [|destruct (String.eqb_spec (MarketingTask.status row) "in_progress")
          as [Hi|Hi]]; cbn [orb].
    + rewrite (cancel_task_cancellable task_id w row) by auto.
      eexists. repeat split. by destruct row.
    + rewrite (cancel_task_cancellable task_id w row) by auto.
      eexists. repeat split. by destruct row.
    + by rewrite (cancel_task_not_cancellable task_id w row).
  - by rewrite cancel_task_unknown.
Qed.

Lemma C5_cancel_task_pending_row :
  let w := world_of (row_t1 "pending") in
  ∃ row', (cancel_task "t1" w).1 = Returned (Some row')
    ∧ store (cancel_task "t1" w).2 = <[ "t1" := row' ]> (store w)
    ∧ _running_tasks (cancel_task "t1" w).2 = <[ "t1" := false ]> (_running_tasks w)
    ∧ MarketingTask.status row' = "cancelled"
    ∧ MarketingTask.completed_at row' = Some 9
    ∧ MarketingTask.error_message row' = Some "Task was cancelled by user"
    ∧ MarketingTask.set_error_message None
        (MarketingTask.set_completed_at None
           (MarketingTask.set_status "pending" row'))
      = row_t1 "pending".
Proof.
  exact (C5_cancel_task "t1" (world_of (row_t1 "pending")) eq_refl eq_refl).
Defined.

(** *** C6: the exception path of execute task *)

(** C6: with the store reachable and a session of its own, for a task that
    execute task has moved to in_progress and whose pipeline invocation
    raises [e] instead of returning a bundle: the row is persisted with
    [completed_at] set to the current time, and with status cancelled and
    [error_message] "Task was cancelled" when the registry flag read for
    the identifier (false when there is no entry) is false, with status
    failed and [error_message] [e] otherwise. *)
Theorem C6_pipeline_raises
    (L : CrewLib) (settings : Settings) (others : Concurrency)
    (task_id : string) (w : World) (row : MarketingTask.t) (e : string) :
  store_fault w = None → session w = ∅ →
  store w !! task_id = Some row →
  MarketingTask.status row ≠ "cancelled" →
  let registry_before := at_commit others (<[task_id:=true]> (_running_tasks w)) in
  let registry_after := during_pipeline others registry_before in
  default false (registry_before !! task_id) = true →
  execute_marketing_task L settings (MarketingTask.topic row)
    (MarketingTask.language row) = Raised e →
  ∃ row' w',
    execute_task L settings others task_id w = (Returned (Some row'), w')
    ∧ store w' !! task_id = Some row'
    ∧ MarketingTask.completed_at row' = Some (clock w)
    ∧ (default false (registry_after !! task_id) = false
       → MarketingTask.status row' = "cancelled"
         ∧ MarketingTask.error_message row' = Some "Task was cancelled")
    ∧ (default false (registry_after !! task_id) = true
       → MarketingTask.status row' = "failed"
         ∧ MarketingTask.error_message row' = Some e).
Proof.
  intros Hf Hs Hrow Hst registry_before registry_after Hflag Hraise.
  rewrite (execute_task_pipeline_raised L settings others task_id w row
             Hf Hs Hrow e Hst Hflag Hraise).
  eexists _, _. split; [done |]. split; [apply lookup_insert_eq |].
  fold registry_before registry_after.
  destruct (default false (registry_after !! task_id)); cbn; by repeat split.
Qed.

Lemma C6_rate_limited_while_wanted :
  ∃ row' w',
    execute_task (rejecting_lib "rate limited") en quiet "t1"
      (world_of (row_t1 "pending")) = (Returned (Some row'), w')
    ∧ store w' !! "t1" = Some row'
    ∧ MarketingTask.completed_at row' = Some 9
    ∧ (true = false
       → MarketingTask.status row' = "cancelled"
         ∧ MarketingTask.error_message row' = Some "Task was cancelled")
    ∧ (true = true
       → MarketingTask.status row' = "failed"
         ∧ MarketingTask.error_message row' = Some "rate limited").
Proof.
  apply (C6_pipeline_raises (rejecting_lib "rate limited") en quiet "t1"
           (world_of (row_t1 "pending")) (row_t1 "pending") "rate limited");
    [reflexivity | reflexivity | reflexivity | discriminate
    | reflexivity | reflexivity].
Defined.

(** *** C8: projecting a row to a result record *)

Lemma split_if_any_spec (text : option string) :
  split_if_any text
  = match text with
    | None => None
    | Some "" => None
    | Some lines => Some (py_split newline lines)
    end.
Proof. by destruct text as [[|c s]|]. Qed.

(** C8: [task_to_result] is a function of the row alone; on every row whose
    status is one of the five status values it returns a result record
    whose social-posts field is the three-element sequence line1, line2,
    line3 when the row's text field holds these three lines joined by
    newlines, is the split of the text at newlines for every non-empty
    text, and is absent when the text field is absent; the same holds for
    campaign_ideas. *)
Theorem C8_task_to_result_splits (task : MarketingTask.t) (status : TaskStatus) :
  TaskStatus_of (MarketingTask.status task) = Returned status →
  ∃ record,
    task_to_result task = Returned record
    ∧ (MarketingTask.social_media_posts task = Some three_lines
       → TaskResult.social_media_posts record = Some ["line1"; "line2"; "line3"])
    ∧ (MarketingTask.campaign_ideas task = Some three_lines
       → TaskResult.campaign_ideas record = Some ["line1"; "line2"; "line3"])
    ∧ (∀ text, text ≠ "" → MarketingTask.social_media_posts task = Some text
       → TaskResult.social_media_posts record = Some (py_split newline text))
    ∧ (∀ text, text ≠ "" → MarketingTask.campaign_ideas task = Some text
       → TaskResult.campaign_ideas record = Some (py_split newline text))
    ∧ (MarketingTask.social_media_posts task = None
       → TaskResult.social_media_posts record = None)
    ∧ (MarketingTask.campaign_ideas task = None
       → TaskResult.campaign_ideas record = None).
Proof.
  intros Hstatus. unfold task_to_result. rewrite Hstatus, outcome_bind_run.
  eexists. split; [reflexivity |]. cbn [TaskResult.social_media_posts
    TaskResult.campaign_ideas]. rewrite !split_if_any_spec.
  repeat split.
  - by intros ->.
  - by intros ->.
  - intros text Hne ->. by destruct text.
  - intros text Hne ->. by destruct text.
  - by intros ->.
  - by intros ->.
Qed.

Lemma C8_three_lines_row :
  ∃ record,
    task_to_result lines_t1 = Returned record
    ∧ TaskResult.social_media_posts record = Some ["line1"; "line2"; "line3"]
    ∧ TaskResult.campaign_ideas record = Some ["line1"; "line2"; "line3"].
Proof.
  destruct (C8_task_to_result_splits lines_t1 COMPLETED eq_refl)
    as (record & Hrecord & Hposts & Hideas & _).
  exists record. split; [exact Hrecord |].
  split; [exact (Hposts eq_refl) | exact (Hideas eq_refl)].
Defined.

(** *** C10: persisting a failed bundle *)

(** C10: with the store reachable and a session of its own, when execute
    task persists a bundle with status failed that carries only status,
    topic and error message, the stored row has status failed, the empty
    text in [result], [social_media_posts] and [campaign_ideas], absent
    [content_strategy] and [blog_outline], and the bundle's error message;
    its projection to a result record has absent social-posts,
    campaign-ideas, content-strategy and blog-outline fields. *)
Theorem C10_failed_bundle_persisted
    (L : CrewLib) (settings : Settings) (others : Concurrency)
    (task_id : string) (w : World) (row : MarketingTask.t) (e : string) :
  store_fault w = None → session w = ∅ →
  store w !! task_id = Some row →
  MarketingTask.status row ≠ "cancelled" →
  let registry_before := at_commit others (<[task_id:=true]> (_running_tasks w)) in
  let registry_after := during_pipeline others registry_before in
  default false (registry_before !! task_id) = true →
  default false (registry_after !! task_id) = true →
  execute_marketing_task L settings (MarketingTask.topic row)
    (MarketingTask.language row)
  = Returned {| Bundle.status := Some "failed";
                Bundle.topic := Some (MarketingTask.topic row);
                Bundle.result := None;
                Bundle.content_strategy := None;
                Bundle.social_media_posts := None;
                Bundle.blog_outline := None;
                Bundle.campaign_ideas := None;
                Bundle.error_message := Some e |} →
  ∃ row' w' record,
    execute_task L settings others task_id w = (Returned (Some row'), w')
    ∧ store w' !! task_id = Some row'
    ∧ MarketingTask.status row' = "failed"
    ∧ MarketingTask.error_message row' = Some e
    ∧ MarketingTask.result row' = Some ""
    ∧ MarketingTask.social_media_posts row' = Some ""
    ∧ MarketingTask.campaign_ideas row' = Some ""
    ∧ MarketingTask.content_strategy row' = None
    ∧ MarketingTask.blog_outline row' = None
    ∧ task_to_result row' = Returned record
    ∧ TaskResult.social_media_posts record = None
    ∧ TaskResult.campaign_ideas record = None
    ∧ TaskResult.content_strategy record = None
    ∧ TaskResult.blog_outline record = None.
Proof.
  intros Hf Hs Hrow Hst registry_before registry_after Hflag Hflag' Hrun.
  rewrite (execute_task_persisted L settings others task_id w row
             Hf Hs Hrow _ Hst Hflag Hrun Hflag').
  eexists _, _, _. split; [done |]. split; [apply lookup_insert_eq |].
  by repeat split.
Qed.

Lemma C10_pipeline_run_fails :
  ∃ row' w' record,
    execute_task (scripted_lib (Raised "rate limited")) en quiet "t1"
      (world_of (row_t1 "pending")) = (Returned (Some row'), w')
    ∧ store w' !! "t1" = Some row'
    ∧ MarketingTask.status row' = "failed"
    ∧ MarketingTask.error_message row' = Some "rate limited"
    ∧ MarketingTask.result row' = Some ""
    ∧ MarketingTask.social_media_posts row' = Some ""
    ∧ MarketingTask.campaign_ideas row' = Some ""
    ∧ MarketingTask.content_strategy row' = None
    ∧ MarketingTask.blog_outline row' = None
    ∧ task_to_result row' = Returned record
    ∧ TaskResult.social_media_posts record = None
    ∧ TaskResult.campaign_ideas record = None
    ∧ TaskResult.content_strategy record = None
    ∧ TaskResult.blog_outline record = None.
Proof.
  apply (C10_failed_bundle_persisted (scripted_lib (Raised "rate limited")) en
           quiet "t1" (world_of (row_t1 "pending")) (row_t1 "pending")
           "rate limited");
    [reflexivity | reflexivity | reflexivity | discriminate
    | reflexivity | reflexivity | reflexivity].
Defined.

(** *** C7: the stored list fields when nothing was extracted *)

(** C7, as stated, fails: after a successful run whose transcript has no
    line naming a platform, the stored [social_media_posts] field holds the
    empty text; it is not absent. *)
Lemma C7_no_posts_stored_as_empty_text :
  let w' := (execute_task (scripted_lib (Returned "Our strategy")) en quiet
               "t1" (world_of (row_t1 "pending"))).2 in
  _extract_social_posts "Our strategy" = []
  ∧ MarketingTask.status <$> store w' !! "t1" = Some "completed"
  ∧ MarketingTask.social_media_posts <$> store w' !! "t1" = Some (Some "")
  ∧ MarketingTask.social_media_posts <$> store w' !! "t1" ≠ Some None.
Proof. vm_compute. by repeat split. Qed.

(** C7, amended: with the store reachable and a session of its own, after
    execute task persists a successful pipeline result in which the
    social-post extraction matched no lines, the stored
    [social_media_posts] field holds the empty text, and the projection of
    the row to a result record has an absent social-posts field; likewise
    for [campaign_ideas] when the idea extraction matched no lines. *)
Theorem C7_nothing_extracted
    (L : CrewLib) (settings : Settings) (others : Concurrency)
    (task_id : string) (w : World) (row : MarketingTask.t)
    (crew : Crew L) (transcript : string) :
  store_fault w = None → session w = ∅ →
  store w !! task_id = Some row →
  MarketingTask.status row ≠ "cancelled" →
  let registry_before := at_commit others (<[task_id:=true]> (_running_tasks w)) in
  let registry_after := during_pipeline others registry_before in
  default false (registry_before !! task_id) = true →
  default false (registry_after !! task_id) = true →
  create_marketing_crew L settings (MarketingTask.topic row)
    (MarketingTask.language row) = Returned crew →
  kickoff_str L crew = Returned transcript →
  ∃ row' w' record,
    execute_task L settings others task_id w = (Returned (Some row'), w')
    ∧ store w' !! task_id = Some row'
    ∧ MarketingTask.status row' = "completed"
    ∧ task_to_result row' = Returned record
    ∧ (_extract_social_posts transcript = []
       → MarketingTask.social_media_posts row' = Some ""
         ∧ TaskResult.social_media_posts record = None)
    ∧ (_extract_campaign_ideas transcript = []
       → MarketingTask.campaign_ideas row' = Some ""
         ∧ TaskResult.campaign_ideas record = None).
Proof.
  intros Hf Hs Hrow Hst registry_before registry_after Hflag Hflag' Hcrew Hkick.
  assert (execute_marketing_task L settings (MarketingTask.topic row)
            (MarketingTask.language row)
          = Returned {| Bundle.status := Some "completed";
                        Bundle.topic := Some (MarketingTask.topic row);
                        Bundle.result := Some transcript;
                        Bundle.content_strategy :=
                          Some (_extract_content_strategy transcript);
                        Bundle.social_media_posts :=
                          Some (_extract_social_posts transcript);
                        Bundle.blog_outline :=
                          Some (_extract_blog_outline transcript);
                        Bundle.campaign_ideas :=
                          Some (_extract_campaign_ideas transcript);
                        Bundle.error_message := None |}) as Hrun.
  { unfold execute_marketing_task. rewrite Hcrew, outcome_bind_run.
    by rewrite Hkick. }
  rewrite (execute_task_persisted L settings others task_id w row
             Hf Hs Hrow _ Hst Hflag Hrun Hflag').
  eexists _, _, _. split; [done |]. split; [apply lookup_insert_eq |].
  split; [done |]. split; [reflexivity |].
  cbn. split; intros ->; by split.
Qed.

Lemma C7_transcript_without_posts_or_ideas :
  ∃ row' w' record,
    execute_task (scripted_lib (Returned "Our strategy")) en quiet "t1"
      (world_of (row_t1 "pending")) = (Returned (Some row'), w')
    ∧ store w' !! "t1" = Some row'
    ∧ MarketingTask.status row' = "completed"
    ∧ task_to_result row' = Returned record
    ∧ (_extract_social_posts "Our strategy" = []
       → MarketingTask.social_media_posts row' = Some ""
         ∧ TaskResult.social_media_posts record = None)
    ∧ (_extract_campaign_ideas "Our strategy" = []
       → MarketingTask.campaign_ideas row' = Some ""
         ∧ TaskResult.campaign_ideas record = None).
Proof.
  eapply (C7_nothing_extracted (scripted_lib (Returned "Our strategy")) en
            quiet "t1" (world_of (row_t1 "pending")) (row_t1 "pending")
            _ "Our strategy");
    [reflexivity | reflexivity | reflexivity | discriminate
    | reflexivity | reflexivity | reflexivity | reflexivity].
Defined.

(** *** C9: GET /tasks *)

(** Rows ordered by creation time, newest first. *)
Lemma newest_first_sorted (rows : gmap string MarketingTask.t) :
  Sorted (λ a b, MarketingTask.created_at b ≤ MarketingTask.created_at a)
    ((merge_sort created_desc (map_to_list rows)).*2)
  ∧ (merge_sort created_desc (map_to_list rows)).*2 ≡ₚ (map_to_list rows).*2.
Proof.
  split.
  - apply (Sorted_fmap snd created_desc); [by intros [] [] |].
    apply (Sorted_merge_sort created_desc).
  - by rewrite (merge_sort_Permutation created_desc).
Qed.

(** C9: in every state of the store the list-tasks endpoint answers with
    status 200: with the empty list when the store cannot be reached or when
    converting a row fails, and otherwise with the result records of all
    persisted rows, ordered by creation time descending. *)
Theorem C9_list_tasks_never_errors (w : World) :
  ∃ body rows,
    (respond list_tasks w).1 = Status200 body
    ∧ rows ≡ₚ (map_to_list (store w)).*2
    ∧ Sorted (λ a b, MarketingTask.created_at b ≤ MarketingTask.created_at a)
        rows
    ∧ (is_Some (store_fault w) → body = [])
    ∧ (store_fault w = None →
       (∀ e, mapM task_to_result rows = Raised e → body = [])
       ∧ (∀ results, mapM task_to_result rows = Returned results
          → body = results
            ∧ Forall2 (λ row record, task_to_result row = Returned record)
                rows body)).
Proof.
  exists (match (respond list_tasks w).1 with
          | Status200 body => body
          | Status500 _ => []
          end),
         ((merge_sort created_desc (map_to_list (store w))).*2).
  destruct (newest_first_sorted (store w)) as [Hsorted Hperm].
  unfold respond, list_tasks. rewrite bind_run. unfold new_session, modify.
  unfold try_exceptM. rewrite bind_run.
  set (w0 := with_session (λ _, ∅) w).
  destruct (store_fault w) as [e|] eqn:Hf.
  - rewrite (get_all_tasks_unreachable w0 e) by done. cbn.
    repeat split; try done.
  - destruct (get_all_tasks_reachable w0) as (w1 & -> & _); [done |].
    change (store w0) with (store w). unfold lift.
    destruct (mapM task_to_result _) as [results|e] eqn:Hmap; cbn.
    + repeat split; try done; [congruence | by apply mapM_Returned].
    + repeat split; try done.
Qed.

Lemma C9_store_unreachable :
  ∃ body, (respond list_tasks unreachable_world).1 = Status200 body ∧ body = [].
Proof.
  destruct (C9_list_tasks_never_errors unreachable_world)
    as (body & rows & Hok & _ & _ & Hempty & _).
  exists body. split; [exact Hok |]. apply Hempty. by eexists.
Defined.

(** *** C2: rows in a terminal status *)

(** C2, as stated, fails: execute task on a row whose status is completed
    runs the task again and, here, leaves it failed. *)
Lemma C2_execute_task_reruns_completed_row :
  let w := world_of done_t1 in
  let w' := (execute_task (scripted_lib (Raised "rate limited")) en quiet
               "t1" w).2 in
  terminal (MarketingTask.status done_t1) = true
  ∧ store w !! "t1" = Some done_t1
  ∧ store w' !! "t1" ≠ Some done_t1
  ∧ MarketingTask.status <$> store w' !! "t1" = Some "failed".
Proof. vm_compute. by repeat split. Qed.

Lemma get_task_unreachable (task_id : string) (w : World) (e : string) :
  store_fault w = Some e → get_task task_id w = (Raised e, w).
Proof.
  intros Hf. unfold get_task. rewrite bind_run. unfold reach_store.
  by rewrite Hf.
Qed.

Lemma get_task_keeps_store (task_id : string) (w : World) :
  store (get_task task_id w).2 = store w
  ∧ _running_tasks (get_task task_id w).2 = _running_tasks w.
Proof.
  unfold get_task. rewrite bind_run. unfold reach_store, act, load.
  destruct (store_fault w); [done |].
  destruct (store w !! task_id); [|done]. by destruct (session w !! task_id).
Qed.

Lemma get_all_tasks_keeps_store (w : World) :
  store (get_all_tasks w).2 = store w
  ∧ _running_tasks (get_all_tasks w).2 = _running_tasks w.
Proof.
  destruct (store_fault w) as [e|] eqn:Hf.
  - by rewrite (get_all_tasks_unreachable w e).
  - by destruct (get_all_tasks_reachable w Hf) as (w' & -> & ? & _ & ?).
Qed.

Lemma create_task_keeps_rows (uuid4 topic : string) (language : option string)
    (w : World) (task_id : string) (row : MarketingTask.t) :
  session w = ∅ → store w !! task_id = Some row →
  store (create_task uuid4 topic language w).2 !! task_id = Some row.
Proof.
  intros Hs Hrow. open_world w.
  unfold create_task, add_flush. unfold_ops.
  destruct fault as [e|]; [done |]. cbn.
  destruct (rows !! uuid4) as [taken|] eqn:Huuid; [done |]. run.
  assert (task_id ≠ uuid4) by congruence. by rewrite lookup_insert_ne.
Qed.

(** C2, amended: for every persisted row whose status is terminal and an
    operation running in a session of its own: cancel task, get task and
    list all tasks leave the store and the registry unchanged; create task
    leaves the row unchanged; execute task, directly or as background work,
    leaves the store and the registry unchanged when the status is
    cancelled. *)
Theorem C2_terminal_rows_stay
    (w : World) (task_id : string) (row : MarketingTask.t) :
  session w = ∅ → store w !! task_id = Some row →
  terminal (MarketingTask.status row) = true →
  (store (cancel_task task_id w).2 = store w
   ∧ _running_tasks (cancel_task task_id w).2 = _running_tasks w)
  ∧ (∀ other, store (get_task other w).2 = store w
              ∧ _running_tasks (get_task other w).2 = _running_tasks w)
  ∧ (store (get_all_tasks w).2 = store w
     ∧ _running_tasks (get_all_tasks w).2 = _running_tasks w)
  ∧ (∀ uuid4 topic language,
       store (create_task uuid4 topic language w).2 !! task_id = Some row)
  ∧ (MarketingTask.status row = "cancelled" →
     ∀ L settings others,
       (store (execute_task L settings others task_id w).2 = store w
        ∧ _running_tasks (execute_task L settings others task_id w).2
          = _running_tasks w)
       ∧ (store (execute_task_async L settings others task_id w).2 = store w
          ∧ _running_tasks (execute_task_async L settings others task_id w).2
            = _running_tasks w)).
Proof.
  intros Hs Hrow Hterm.
  split; [|split; [|split; [|split]]].
  - destruct (store_fault w) as [e|] eqn:Hf.
    + unfold cancel_task. by rewrite bind_run, (get_task_unreachable _ _ e).
    + rewrite (cancel_task_not_cancellable task_id w row); try done.
      * intros Hp. by rewrite Hp in Hterm.
      * intros Hp. by rewrite Hp in Hterm.
  - intros other. apply get_task_keeps_store.
  - apply get_all_tasks_keeps_store.
  - intros. by apply create_task_keeps_rows.
  - intros Hst L settings others.
    destruct (store_fault w) as [e|] eqn:Hf.
    + split.
      * unfold execute_task. by rewrite bind_run, (get_task_unreachable _ _ e).
      * unfold execute_task_async, new_session, modify, try_exceptM.
        rewrite !bind_run. unfold execute_task. rewrite bind_run.
        rewrite (get_task_unreachable _ _ e) by done.
        rewrite bind_run. by rewrite (get_task_unreachable _ _ e) by done.
    + split.
      * by rewrite (execute_task_already_cancelled L settings others task_id w row).
      * unfold execute_task_async, new_session, modify, try_exceptM.
        rewrite !bind_run.
        by rewrite (execute_task_already_cancelled L settings others task_id _ row).
Qed.

Lemma C2_cancelled_row_stays :
  let w := world_of (row_t1 "cancelled") in
  (store (cancel_task "t1" w).2 = store w
   ∧ _running_tasks (cancel_task "t1" w).2 = _running_tasks w)
  ∧ (store (execute_task (scripted_lib (Returned "Our strategy")) en quiet
              "t1" w).2 = store w
     ∧ _running_tasks (execute_task (scripted_lib (Returned "Our strategy")) en
                         quiet "t1" w).2 = _running_tasks w).
Proof.
  destruct (C2_terminal_rows_stay (world_of (row_t1 "cancelled")) "t1"
              (row_t1 "cancelled") eq_refl eq_refl eq_refl)
    as (Hcancel & _ & _ & _ & Hexecute).
  split; [exact Hcancel |].
  exact (proj1 (Hexecute eq_refl (scripted_lib (Returned "Our strategy")) en quiet)).
Defined.

(** *** C3: the registry entry of a task that reached a terminal status *)

(** C3, as stated, fails: cancel task moves a pending task to cancelled and
    leaves the registry entry of the task in the mapping. *)
Lemma C3_cancel_task_keeps_registry_entry :
  let w := world_of (row_t1 "pending") in
  let w' := (cancel_task "t1" w).2 in
  MarketingTask.status <$> store w !! "t1" = Some "pending"
  ∧ MarketingTask.status <$> store w' !! "t1" = Some "cancelled"
  ∧ _running_tasks w' !! "t1" = Some false
  ∧ _running_tasks w' !! "t1" ≠ None.
Proof. vm_compute. by repeat split. Qed.

Lemma bundle_status_terminal
    (L : CrewLib) (settings : Settings) (topic : string)
    (language : option string) (bundle : Bundle.t) :
  execute_marketing_task L settings topic language = Returned bundle →
  terminal (Bundle.get (Bundle.status bundle) (value FAILED)) = true.
Proof.
  unfold execute_marketing_task.
  destruct (create_marketing_crew L settings topic language) as [crew|e];
    [|done].
  rewrite outcome_bind_run. by destruct (kickoff_str L crew); intros [= <-].
Qed.

(** C3, amended: with the store reachable and a session of its own, when
    execute task has invoked the pipeline, it stores the row in a terminal
    status (at the checkpoint after the call, when persisting the returned
    bundle, or on the exception path) and the registry holds no entry for
    the identifier when it returns; cancel task on a pending or in_progress
    row stores status cancelled and leaves the entry of the identifier in
    the registry, holding false. *)
Theorem C3_registry_entry_after_terminal
    (L : CrewLib) (settings : Settings) (others : Concurrency)
    (task_id : string) (w : World) (row : MarketingTask.t) :
  store_fault w = None → session w = ∅ →
  store w !! task_id = Some row →
  (MarketingTask.status row ≠ "cancelled" →
   default false
     (at_commit others (<[task_id:=true]> (_running_tasks w)) !! task_id) = true →
   ∃ row' w',
     execute_task L settings others task_id w = (Returned (Some row'), w')
     ∧ store w' !! task_id = Some row'
     ∧ terminal (MarketingTask.status row') = true
     ∧ _running_tasks w' !! task_id = None)
  ∧ (MarketingTask.status row = "pending"
     ∨ MarketingTask.status row = "in_progress" →
     ∃ row' w',
       cancel_task task_id w = (Returned (Some row'), w')
       ∧ store w' !! task_id = Some row'
       ∧ MarketingTask.status row' = "cancelled"
       ∧ _running_tasks w' !! task_id = Some false).
Proof.
  intros Hf Hs Hrow. split.
  - intros Hst Hflag.
    destruct (execute_marketing_task L settings (MarketingTask.topic row)
                (MarketingTask.language row)) as [bundle|e] eqn:Hrun.
    + destruct (default false
                  (during_pipeline others
                     (at_commit others (<[task_id:=true]> (_running_tasks w)))
                   !! task_id)) eqn:Hflag'.
      * rewrite (execute_task_persisted L settings others task_id w row
                   Hf Hs Hrow bundle Hst Hflag Hrun Hflag').
        eexists _, _. split; [done |]. split; [apply lookup_insert_eq |].
        split; [exact (bundle_status_terminal _ _ _ _ _ Hrun) |].
        apply lookup_delete_eq.
      * rewrite (execute_task_cancelled_during L settings others task_id w row
                   Hf Hs Hrow bundle Hst Hflag Hrun Hflag').
        eexists _, _. split; [done |]. split; [apply lookup_insert_eq |].
        split; [done | apply lookup_delete_eq].
    + rewrite (execute_task_pipeline_raised L settings others task_id w row
                 Hf Hs Hrow e Hst Hflag Hrun).
      eexists _, _. split; [done |]. split; [apply lookup_insert_eq |].
      split; [by destruct (default false (during_pipeline _ _ !! _))
             | apply lookup_delete_eq].
  - intros Hst. rewrite (cancel_task_cancellable task_id w row Hf Hs Hrow Hst).
    eexists _, _. split; [done |]. split; [apply lookup_insert_eq |].
    split; [done | apply lookup_insert_eq].
Qed.

Lemma C3_completed_run_and_user_cancel :
  let w := world_of (row_t1 "pending") in
  (∃ row' w',
     execute_task (scripted_lib (Returned "Our strategy")) en quiet "t1" w
     = (Returned (Some row'), w')
     ∧ store w' !! "t1" = Some row'
     ∧ terminal (MarketingTask.status row') = true
     ∧ _running_tasks w' !! "t1" = None)
  ∧ (∃ row' w',
       cancel_task "t1" w = (Returned (Some row'), w')
       ∧ store w' !! "t1" = Some row'
       ∧ MarketingTask.status row' = "cancelled"
       ∧ _running_tasks w' !! "t1" = Some false).
Proof.
  destruct (C3_registry_entry_after_terminal
              (scripted_lib (Returned "Our strategy")) en quiet "t1"
              (world_of (row_t1 "pending")) (row_t1 "pending")
              eq_refl eq_refl eq_refl) as [Hexecute Hcancel].
  split.
  - apply Hexecute; [discriminate | reflexivity].
  - apply Hcancel. by left.
Defined.
(** * Further properties of the services *)

(** ** create task *)

(** The row [create_task] inserts. *)
Lemma create_task_fresh (uuid4 topic : string) (language : option string)
    (w : World) :
  store_fault w = None → session w = ∅ → store w !! uuid4 = None →
  let task :=
    {| MarketingTask.id := next_id (store w);
       MarketingTask.task_id := uuid4;
       MarketingTask.topic := topic;
       MarketingTask.status := "pending";
       MarketingTask.created_at := clock w;
       MarketingTask.completed_at := None;
       MarketingTask.result := None;
       MarketingTask.content_strategy := None;
       MarketingTask.social_media_posts := None;
       MarketingTask.blog_outline := None;
       MarketingTask.campaign_ideas := None;
       MarketingTask.error_message := None;
       MarketingTask.language := language |} in
  create_task uuid4 topic language w
  = (Returned task,
     with_session (λ _, {[uuid4 := task]}) (with_store (insert uuid4 task) w)).
Proof.
  intros Hf Hs Hfree task. subst task. open_world w.
  unfold create_task, add_flush. unfold_ops. cbn. rewrite Hfree. run.
  by rewrite insert_empty.
Qed.

Lemma create_task_refused (uuid4 topic : string) (language : option string)
    (w : World) :
  is_Some (store_fault w) ∨ is_Some (store w !! uuid4) →
  ∃ e, create_task uuid4 topic language w = (Raised e, w).
Proof.
  intros Hwhy. unfold create_task, add_flush. rewrite !bind_run.
  unfold reach_store, act.
  destruct (store_fault w) as [e|] eqn:Hf; [by exists e |].
  destruct Hwhy as [[? [=]] | [row Hrow]]. rewrite Hrow. by eexists.
Qed.

Lemma next_id_above (rows : gmap string MarketingTask.t) (key : string)
    (row : MarketingTask.t) :
  rows !! key = Some row → MarketingTask.id row < next_id rows.
Proof.
  unfold next_id. revert key row.
  apply (map_fold_weak_ind
           (λ m (rows : gmap string MarketingTask.t),
              ∀ key row, rows !! key = Some row → MarketingTask.id row < S m)).
  - intros key row. by rewrite lookup_empty.
  - intros k r rows' m Hk IH key row.
    destruct (decide (k = key)) as [->|Hne].
    + rewrite lookup_insert_eq. intros [= ->]. lia.
    + rewrite lookup_insert_ne by done. intros Hrow.
      specialize (IH key row Hrow). lia.
Qed.

(** On a reachable store and with an unused identifier, [create_task]
    commits and returns a row with that identifier, the given topic and
    language, status pending, the current time as creation time, no
    completion time, no artifacts and no error message, under a surrogate
    key above every stored one; the other rows and the registry stay as
    they were. *)
Theorem create_task_inserts_pending_row
    (uuid4 topic : string) (language : option string) (w : World) :
  store_fault w = None → session w = ∅ → store w !! uuid4 = None →
  ∃ task w',
    create_task uuid4 topic language w = (Returned task, w')
    ∧ store w' = <[uuid4:=task]> (store w)
    ∧ _running_tasks w' = _running_tasks w
    ∧ MarketingTask.task_id task = uuid4
    ∧ MarketingTask.topic task = topic
    ∧ MarketingTask.language task = language
    ∧ MarketingTask.status task = value PENDING
    ∧ MarketingTask.created_at task = clock w
    ∧ MarketingTask.completed_at task = None
    ∧ MarketingTask.result task = None
    ∧ MarketingTask.content_strategy task = None
    ∧ MarketingTask.social_media_posts task = None
    ∧ MarketingTask.blog_outline task = None
    ∧ MarketingTask.campaign_ideas task = None
    ∧ MarketingTask.error_message task = None
    ∧ ∀ key row, store w !! key = Some row
        → MarketingTask.id row < MarketingTask.id task.
Proof.
  intros Hf Hs Hfree.
  rewrite (create_task_fresh uuid4 topic language w Hf Hs Hfree).
  eexists _, _. split; [reflexivity |]. repeat split.
  intros key row Hrow. cbn. by eapply next_id_above.
Qed.

Lemma create_task_inserts_pending_row_example :
  ∃ task w',
    create_task "t2" "Shoes" (Some "es") (world_of (row_t1 "completed"))
    = (Returned task, w')
    ∧ store w' !! "t2" = Some task
    ∧ store w' !! "t1" = Some (row_t1 "completed")
    ∧ MarketingTask.status task = "pending"
    ∧ MarketingTask.id (row_t1 "completed") < MarketingTask.id task.
Proof.
  destruct (create_task_inserts_pending_row "t2" "Shoes" (Some "es")
              (world_of (row_t1 "completed")) eq_refl eq_refl eq_refl)
    as (task & w' & Hrun & Hstore & _ & _ & _ & _ & Hstatus & Hrest).
  exists task, w'. split; [exact Hrun |].
  rewrite Hstore. split; [apply lookup_insert_eq |].
  split; [reflexivity |]. split; [exact Hstatus |].
  destruct Hrest as (_ & _ & _ & _ & _ & _ & _ & _ & Habove).
  apply (Habove "t1"). reflexivity.
Defined.



(** ** get task *)

Lemma get_task_stored (task_id : string) (w : World) (row : MarketingTask.t) :
  store_fault w = None → session w = ∅ → store w !! task_id = Some row →
  get_task task_id w
  = (Returned (Some row), with_session (λ _, {[task_id := row]}) w).
Proof.
  intros Hf Hs Hrow. open_world w. unfold get_task. unfold_ops. cbn.
  rewrite Hrow. run. by rewrite insert_empty.
Qed.

Lemma get_task_unknown (task_id : string) (w : World) :
  store_fault w = None → store w !! task_id = None →
  get_task task_id w = (Returned None, w).
Proof.
  intros Hf Hrow. open_world w. unfold get_task. unfold_ops. cbn.
  by rewrite Hrow.
Qed.

(** A task that [create_task] returned is what [get_task] finds under its
    identifier in a later session. *)
Theorem create_task_then_get_task
    (uuid4 topic : string) (language : option string) (w : World) :
  store_fault w = None → session w = ∅ → store w !! uuid4 = None →
  ∃ task w',
    create_task uuid4 topic language w = (Returned task, w')
    ∧ ((new_session;; get_task (MarketingTask.task_id task)) w').1
      = Returned (Some task).
Proof.
  intros Hf Hs Hfree.
  rewrite (create_task_fresh uuid4 topic language w Hf Hs Hfree).
  eexists _, _. split; [reflexivity |].
  rewrite bind_run. unfold new_session, modify. cbn [MarketingTask.task_id].
  erewrite get_task_stored; [reflexivity | done | done |].
  cbn. apply lookup_insert_eq.
Qed.

Lemma create_task_then_get_task_example :
  ∃ task w',
    create_task "t2" "Shoes" None (world_of (row_t1 "completed"))
    = (Returned task, w')
    ∧ ((new_session;; get_task (MarketingTask.task_id task)) w').1
      = Returned (Some task).
Proof.
  exact (create_task_then_get_task "t2" "Shoes" None
           (world_of (row_t1 "completed")) eq_refl eq_refl eq_refl).
Defined.

(** ** delete task *)

Lemma delete_task_unknown (task_id : string) (w : World) :
  store_fault w = None → store w !! task_id = None →
  delete_task task_id w = (Returned false, w).
Proof.
  intros Hf Hrow. unfold delete_task. rewrite bind_run.
  by rewrite get_task_unknown.
Qed.

Lemma delete_task_stored (task_id : string) (w : World) (row : MarketingTask.t) :
  store_fault w = None → session w = ∅ → store w !! task_id = Some row →
  delete_task task_id w
  = (Returned true,
     with_running (delete task_id) (with_store (delete task_id) w)).
Proof.
  intros Hf Hs Hrow. open_world w.
  unfold delete_task, get_task. unfold_ops. cbn. rewrite Hrow. run.
  destruct (_ || _); run;
    by rewrite ?delete_empty, ?(left_id_L ∅ (∪)), ?delete_insert_eq.
Qed.

(** On a reachable store, [delete_task] on an unknown identifier returns
    false and changes nothing; on a stored identifier it returns true,
    removes exactly that row from the store and exactly that entry from
    the registry, whatever the status of the row. *)
Theorem delete_task_removes_row_and_flag (task_id : string) (w : World) :
  store_fault w = None → session w = ∅ →
  match store w !! task_id with
  | None => delete_task task_id w = (Returned false, w)
  | Some _ =>
      ∃ w', delete_task task_id w = (Returned true, w')
        ∧ store w' = delete task_id (store w)
        ∧ _running_tasks w' = delete task_id (_running_tasks w)
  end.
Proof.
  intros Hf Hs. destruct (store w !! task_id) as [row|] eqn:Hrow.
  - rewrite (delete_task_stored task_id w row Hf Hs Hrow). by eexists.
  - by apply delete_task_unknown.
Qed.

Lemma delete_task_removes_row_and_flag_example :
  ∃ w', delete_task "t1" (world_of (row_t1 "in_progress")) = (Returned true, w')
    ∧ store w' = delete "t1" (store (world_of (row_t1 "in_progress")))
    ∧ _running_tasks w'
      = delete "t1" (_running_tasks (world_of (row_t1 "in_progress"))).
Proof.
  exact (delete_task_removes_row_and_flag "t1"
           (world_of (row_t1 "in_progress")) eq_refl eq_refl).
Defined.

(** After [delete_task] has removed a task, every operation on its
    identifier in a later session finds nothing: [get_task], [cancel_task]
    and [execute_task] return absent and [delete_task] returns false, and
    none of them changes the store or the registry. *)
Theorem deleted_task_is_gone
    (L : CrewLib) (settings : Settings) (others : Concurrency)
    (task_id : string) (w : World) (row : MarketingTask.t) :
  store_fault w = None → session w = ∅ → store w !! task_id = Some row →
  ∃ w', delete_task task_id w = (Returned true, w')
    ∧ get_task task_id (with_session (λ _, ∅) w')
      = (Returned None, with_session (λ _, ∅) w')
    ∧ cancel_task task_id (with_session (λ _, ∅) w')
      = (Returned None, with_session (λ _, ∅) w')
    ∧ execute_task L settings others task_id (with_session (λ _, ∅) w')
      = (Returned None, with_session (λ _, ∅) w')
    ∧ delete_task task_id (with_session (λ _, ∅) w')
      = (Returned false, with_session (λ _, ∅) w').
Proof.
  intros Hf Hs Hrow. rewrite (delete_task_stored task_id w row Hf Hs Hrow).
  eexists. split; [reflexivity |].
  set (w' := with_session _ _).
  assert (store_fault w' = None) as Hf' by done.
  assert (store w' !! task_id = None) as Hgone by apply lookup_delete_eq.
  split; [by apply get_task_unknown |].
  split; [by apply cancel_task_unknown |].
  split; [|by apply delete_task_unknown].
  unfold execute_task. rewrite bind_run. by rewrite get_task_unknown.
Qed.

Lemma deleted_task_is_gone_example :
  ∃ w', delete_task "t1" (world_of done_t1) = (Returned true, w')
    ∧ get_task "t1" (with_session (λ _, ∅) w')
      = (Returned None, with_session (λ _, ∅) w')
    ∧ cancel_task "t1" (with_session (λ _, ∅) w')
      = (Returned None, with_session (λ _, ∅) w')
    ∧ execute_task (scripted_lib (Returned "Our strategy")) en quiet "t1"
        (with_session (λ _, ∅) w')
      = (Returned None, with_session (λ _, ∅) w')
    ∧ delete_task "t1" (with_session (λ _, ∅) w')
      = (Returned false, with_session (λ _, ∅) w').
Proof.
  exact (deleted_task_is_gone (scripted_lib (Returned "Our strategy")) en quiet
           "t1" (world_of done_t1) done_t1 eq_refl eq_refl eq_refl).
Defined.

(** ** execute task *)

Lemma execute_task_unknown
    (L : CrewLib) (settings : Settings) (others : Concurrency)
    (task_id : string) (w : World) :
  store_fault w = None → store w !! task_id = None →
  execute_task L settings others task_id w = (Returned None, w).
Proof.
  intros Hf Hrow. unfold execute_task. rewrite bind_run.
  by rewrite get_task_unknown.
Qed.

(** Every path of [execute_task] on a stored task, on a reachable store. *)
Lemma execute_task_stored_paths
    (L : CrewLib) (settings : Settings) (others : Concurrency)
    (task_id : string) (w : World) (row : MarketingTask.t) :
  store_fault w = None → session w = ∅ → store w !! task_id = Some row →
  ∃ row' w',
    execute_task L settings others task_id w = (Returned (Some row'), w')
    ∧ store w' !! task_id = Some row'
    ∧ (∀ other, other ≠ task_id → store w' !! other = store w !! other)
    ∧ terminal (MarketingTask.status row') = true
    ∧ (MarketingTask.status row ≠ value CANCELLED
       → MarketingTask.completed_at row' = Some (clock w))
    ∧ MarketingTask.id row' = MarketingTask.id row
    ∧ MarketingTask.task_id row' = MarketingTask.task_id row
    ∧ MarketingTask.topic row' = MarketingTask.topic row
    ∧ MarketingTask.created_at row' = MarketingTask.created_at row
    ∧ MarketingTask.language row' = MarketingTask.language row.
Proof.
  intros Hf Hs Hrow.
  assert (∀ (row' : MarketingTask.t) (registry : gmap string bool),
            store (with_running (λ _, registry)
                     (with_session (λ _, {[task_id := row']})
                        (with_store (insert task_id row') w))) !! task_id
            = Some row'
            ∧ ∀ other, other ≠ task_id →
                store (with_running (λ _, registry)
                         (with_session (λ _, {[task_id := row']})
                            (with_store (insert task_id row') w))) !! other
                = store w !! other) as Hframe.
  { intros row' registry. cbn. split; [apply lookup_insert_eq |].
    intros other Hne. by apply lookup_insert_ne. }
  destruct (String.eqb_spec (MarketingTask.status row) (value CANCELLED))
    as [Hst|Hst].
  { rewrite (execute_task_already_cancelled L settings others task_id w row
               Hf Hs Hrow Hst).
    eexists _, _. split; [reflexivity |]. split; [exact Hrow |].
    split; [done |]. split; [by rewrite Hst |]. by repeat split. }
  destruct (default false
              (at_commit others (<[task_id:=true]> (_running_tasks w))
               !! task_id)) eqn:Hflag.
  2: { rewrite (execute_task_cancelled_before L settings others task_id w row
                  Hf Hs Hrow Hst Hflag).
       eexists _, _. split; [reflexivity |].
       destruct (Hframe
         (MarketingTask.set_error_message
            (Some "Task was cancelled before execution")
            (MarketingTask.set_completed_at (Some (clock w))
               (MarketingTask.set_status (value CANCELLED) row)))
         (at_commit others (<[task_id:=true]> (_running_tasks w))))
         as [Hat Hother].
       split; [exact Hat |]. split; [exact Hother |]. by repeat split. }
  destruct (execute_marketing_task L settings (MarketingTask.topic row)
              (MarketingTask.language row)) as [bundle|e] eqn:Hrun.
  - destruct (default false
                (during_pipeline others
                   (at_commit others (<[task_id:=true]> (_running_tasks w)))
                 !! task_id)) eqn:Hflag'.
    + rewrite (execute_task_persisted L settings others task_id w row
                 Hf Hs Hrow bundle Hst Hflag Hrun Hflag').
      eexists _, _. split; [reflexivity |].
      split; [apply Hframe |]. split; [apply Hframe |].
      split; [exact (bundle_status_terminal _ _ _ _ _ Hrun) |].
      by repeat split.
    + rewrite (execute_task_cancelled_during L settings others task_id w row
                 Hf Hs Hrow bundle Hst Hflag Hrun Hflag').
      eexists _, _. split; [reflexivity |].
      split; [apply Hframe |]. split; [apply Hframe |]. by repeat split.
  - rewrite (execute_task_pipeline_raised L settings others task_id w row
               Hf Hs Hrow e Hst Hflag Hrun).
    eexists _, _. split; [reflexivity |].
    split; [apply Hframe |]. split; [apply Hframe |].
    destruct (default false (during_pipeline _ _ !! _)); by repeat split.
Qed.



(** A task cancelled while still pending is not run: [execute_task] in a
    later session returns the cancelled row as [cancel_task] left it and
    changes neither the store nor the registry, whatever the pipeline
    would have produced. *)
Theorem cancel_task_then_execute_task
    (L : CrewLib) (settings : Settings) (others : Concurrency)
    (task_id : string) (w : World) (row : MarketingTask.t) :
  store_fault w = None → session w = ∅ → store w !! task_id = Some row →
  MarketingTask.status row = value PENDING →
  ∃ row' w1 w2,
    cancel_task task_id w = (Returned (Some row'), w1)
    ∧ execute_task L settings others task_id (with_session (λ _, ∅) w1)
      = (Returned (Some row'), w2)
    ∧ MarketingTask.status row' = value CANCELLED
    ∧ MarketingTask.error_message row' = Some "Task was cancelled by user"
    ∧ store w2 = store w1
    ∧ _running_tasks w2 = _running_tasks w1.
Proof.
  intros Hf Hs Hrow Hst.
  rewrite (cancel_task_cancellable task_id w row Hf Hs Hrow (or_introl Hst)).
  eexists _, _, _. split; [reflexivity |].
  split; [|by repeat split].
  rewrite (execute_task_already_cancelled L settings others task_id _
             (MarketingTask.set_error_message (Some "Task was cancelled by user")
                (MarketingTask.set_completed_at (Some (clock w))
                   (MarketingTask.set_status (value CANCELLED) row))));
    [reflexivity | done | done | apply lookup_insert_eq | done].
Qed.

Lemma cancel_task_then_execute_task_example :
  ∃ row' w1 w2,
    cancel_task "t1" (world_of (row_t1 "pending")) = (Returned (Some row'), w1)
    ∧ execute_task (scripted_lib (Returned "Our strategy")) en quiet "t1"
        (with_session (λ _, ∅) w1)
      = (Returned (Some row'), w2)
    ∧ MarketingTask.status row' = "cancelled"
    ∧ MarketingTask.error_message row' = Some "Task was cancelled by user"
    ∧ store w2 = store w1
    ∧ _running_tasks w2 = _running_tasks w1.
Proof.
  exact (cancel_task_then_execute_task (scripted_lib (Returned "Our strategy"))
           en quiet "t1" (world_of (row_t1 "pending")) (row_t1 "pending")
           eq_refl eq_refl eq_refl eq_refl).
Defined.



(** ** execute task as background work *)

Lemma execute_task_async_returns
    (L : CrewLib) (settings : Settings) (others : Concurrency)
    (task_id : string) (w : World) :
  ∃ w',
    execute_task_async L settings others task_id w = (Returned (), w')
    ∧ (is_Some (store_fault w)
       → store w' = store w ∧ _running_tasks w' = _running_tasks w)
    ∧ (store_fault w = None
       → w' = (execute_task L settings others task_id
                 (with_session (λ _, ∅) w)).2).
Proof.
  unfold execute_task_async, new_session, modify, try_exceptM.
  rewrite !bind_run. set (w0 := with_session (λ _, ∅) w).
  destruct (store_fault w) as [e|] eqn:Hf.
  - assert (store_fault w0 = Some e) as Hf0 by done.
    unfold execute_task at 1. rewrite bind_run.
    rewrite (get_task_unreachable task_id w0 e Hf0).
    rewrite bind_run, (get_task_unreachable task_id w0 e Hf0).
    exists w0. split; [reflexivity |]. split; [done |]. by intros [=].
  - assert (store_fault w0 = None) as Hf0 by done.
    assert (session w0 = ∅) as Hs0 by done.
    destruct (store w0 !! task_id) as [row|] eqn:Hrow.
    + destruct (execute_task_stored_paths L settings others task_id w0 row
                  Hf0 Hs0 Hrow) as (row' & w' & -> & _).
      exists w'. split; [reflexivity |]. split; [by intros [? [=]] | done].
    + rewrite (execute_task_unknown L settings others task_id w0 Hf0 Hrow).
      exists w0. split; [reflexivity |]. split; [by intros [? [=]] | done].
Qed.

(** [execute_task_async] never raises: in every world, for every library
    and whatever the other requests do, it returns.  When the store cannot
    be reached it leaves the store and the registry as they were; when it
    can, it leaves the world [execute_task] leaves in a session of its
    own. *)
Theorem execute_task_async_never_raises
    (L : CrewLib) (settings : Settings) (others : Concurrency)
    (task_id : string) (w : World) :
  ∃ w',
    execute_task_async L settings others task_id w = (Returned (), w')
    ∧ (is_Some (store_fault w)
       → store w' = store w ∧ _running_tasks w' = _running_tasks w)
    ∧ (store_fault w = None
       → w' = (execute_task L settings others task_id
                 (with_session (λ _, ∅) w)).2).
Proof. apply execute_task_async_returns. Qed.

(** ** Text facts behind the stored list fields *)

Lemma py_in_char_cons (c a : ascii) (s : string) :
  py_in (String c "") (String a s)
  = (if Ascii.ascii_dec c a then true else false) || py_in (String c "") s.
Proof.
  change (py_in (String c "") (String a s))
    with (String.prefix (String c "") (String a s) || py_in (String c "") s).
  f_equal. simpl. destruct (Ascii.ascii_dec c a); [by destruct s | done].
Qed.

Lemma lstrip_no_char (c : ascii) (s : string) :
  py_in (String c "") s = false → py_in (String c "") (lstrip s) = false.
Proof.
  induction s as [|a s IH]; [done |]. intros Hs. simpl.
  destruct (isspace a); [|done]. apply IH.
  rewrite py_in_char_cons in Hs. by apply orb_false_elim in Hs as [_ ?].
Qed.

Lemma rstrip_no_char (c : ascii) (s : string) :
  py_in (String c "") s = false → py_in (String c "") (rstrip s) = false.
Proof.
  induction s as [|a s IH]; [done |]. intros Hs.
  rewrite py_in_char_cons in Hs. apply orb_false_elim in Hs as [Ha Hs].
  specialize (IH Hs). simpl. destruct (rstrip s) as [|b kept].
  - destruct (isspace a); [done |]. by rewrite py_in_char_cons, Ha.
  - by rewrite py_in_char_cons, Ha.
Qed.

Lemma py_strip_no_char (c : ascii) (s : string) :
  py_in (String c "") s = false → py_in (String c "") (py_strip s) = false.
Proof. intros Hs. by apply rstrip_no_char, lstrip_no_char. Qed.

Lemma rstrip_rstrip (s : string) : rstrip (rstrip s) = rstrip s.
Proof.
  induction s as [|a s IH]; [done |]. simpl.
  destruct (rstrip s) as [|b kept] eqn:Hkept.
  - destruct (isspace a) eqn:Ha; [done |]. simpl. by rewrite Ha.
  - simpl in *. by rewrite IH.
Qed.

Lemma lstrip_head (s : string) :
  lstrip s = "" ∨ ∃ c rest, lstrip s = String c rest ∧ isspace c = false.
Proof.
  induction s as [|a s IH]; [by left |]. simpl.
  destruct (isspace a) eqn:Ha; [done |]. right. by exists a, s.
Qed.

Lemma rstrip_head (c : ascii) (rest : string) :
  isspace c = false → ∃ kept, rstrip (String c rest) = String c kept.
Proof.
  intros Hc. simpl. destruct (rstrip rest) as [|b kept].
  - rewrite Hc. by exists "".
  - by eexists.
Qed.

(** Stripping twice is stripping once. *)
Lemma py_strip_py_strip (s : string) : py_strip (py_strip s) = py_strip s.
Proof.
  unfold py_strip. destruct (lstrip_head s) as [-> | (c & rest & -> & Hc)];
    [done |].
  destruct (rstrip_head c rest Hc) as [kept Hkept].
  rewrite Hkept at 1. cbn [lstrip]. rewrite Hc, <- Hkept.
  apply rstrip_rstrip.
Qed.

Lemma lstrip_keeps (c : ascii) (s : string) :
  isspace c = false → is_substring (String c "") s → lstrip s ≠ "".
Proof.
  intros Hc. induction s as [|a s IH]; intros (pre & post & Hs).
  - by destruct pre.
  - simpl. destruct (isspace a) eqn:Ha; [|done]. apply IH.
    destruct pre as [|b pre]; rewrite ?append_cons in Hs; simpl in Hs.
    + injection Hs as -> ->. congruence.
    + injection Hs as -> ->. by exists pre, post.
Qed.

(** A text with a character that is not white space does not strip to the
    empty text. *)
Lemma py_strip_keeps (c : ascii) (s : string) :
  isspace c = false → is_substring (String c "") s → py_strip s ≠ "".
Proof.
  intros Hc Hin. unfold py_strip.
  destruct (lstrip_head s) as [Hempty | (a & rest & -> & Ha)].
  - by apply lstrip_keeps in Hin.
  - by destruct (rstrip_head a rest Ha) as [kept ->].
Qed.

Lemma py_lower_app_inv (s x y : string) :
  py_lower s = x +:+ y →
  ∃ s1 s2, s = s1 +:+ s2 ∧ py_lower s1 = x ∧ py_lower s2 = y.
Proof.
  revert s. induction x as [|a x IH]; intros s Hs.
  - by exists "", s.
  - destruct s as [|c s]; [done |]. rewrite append_cons in Hs. simpl in Hs.
    injection Hs as Ha Hs. destruct (IH s Hs) as (s1 & s2 & -> & <- & <-).
    exists (String c s1), s2. by rewrite append_cons, <- Ha.
Qed.

Lemma lower_char_not_space (c : ascii) :
  isspace (lower_char c) = false → isspace c = false.
Proof. by destruct c as [[] [] [] [] [] [] [] []]. Qed.

(** A text whose lowercase form contains a word that starts with a
    character that is not white space has such a character itself. *)
Lemma mentioned_word_char (a : ascii) (word s : string) :
  isspace a = false → is_substring (String a word) (py_lower s) →
  ∃ c, isspace c = false ∧ is_substring (String c "") s.
Proof.
  intros Ha (pre & post & Hs).
  destruct (py_lower_app_inv s _ _ Hs) as (s1 & s2 & -> & _ & Hs2).
  destruct s2 as [|c s2]; [done |]. rewrite append_cons in Hs2.
  simpl in Hs2. injection Hs2 as Hc _.
  exists c. split; [apply lower_char_not_space; by rewrite Hc |].
  by exists s1, s2.
Qed.

Lemma py_split_whole (sep : ascii) (s : string) :
  py_in (String sep "") s = false → py_split sep s = [s].
Proof.
  induction s as [|a s IH]; [done |]. rewrite py_in_char_cons.
  intros [Ha Hs]%orb_false_elim. simpl.
  destruct (Ascii.eqb_spec a sep) as [->|Hne].
  - by destruct (Ascii.ascii_dec sep sep).
  - by rewrite (IH Hs).
Qed.

Lemma py_split_app (sep : ascii) (s rest : string) :
  py_in (String sep "") s = false →
  py_split sep (s +:+ String sep rest) = s :: py_split sep rest.
Proof.
  induction s as [|a s IH].
  - intros _. simpl. by rewrite Ascii.eqb_refl.
  - rewrite py_in_char_cons. intros [Ha Hs]%orb_false_elim.
    rewrite append_cons. simpl.
    destruct (Ascii.eqb_spec a sep) as [->|Hne].
    + by destruct (Ascii.ascii_dec sep sep).
    + by rewrite (IH Hs).
Qed.

(** Splitting the join of a non-empty list of separator-free texts gives
    the list back. *)
Lemma py_split_join (sep : ascii) (items : list string) :
  items ≠ [] →
  Forall (λ item, py_in (String sep "") item = false) items →
  py_split sep (py_join (String sep "") items) = items.
Proof.
  intros Hne Hitems. induction Hitems as [|x items Hx Hitems IH]; [done |].
  destruct items as [|y items].
  - simpl. by apply py_split_whole.
  - change (py_join (String sep "") (x :: y :: items))
      with (x +:+ String sep "" +:+ py_join (String sep "") (y :: items)).
    rewrite append_cons. change ("" +:+ ?s) with s.
    rewrite py_split_app by done. by rewrite IH.
Qed.

Lemma py_join_nonempty (sep : string) (items : list string) :
  items ≠ [] → Forall (λ item, item ≠ "") items → py_join sep items ≠ "".
Proof.
  intros Hne Hitems. destruct Hitems as [|x items Hx Hitems]; [done |].
  destruct x as [|a x]; [done |]. by destruct items.
Qed.

(** ** The extracted lists *)

Lemma kept_line_shape (keep : string → bool) (n : nat) (transcript item : string) :
  (∀ line, keep line = true →
     ∃ c, isspace c = false ∧ is_substring (String c "") line) →
  item ∈ take n (py_strip <$> List.filter keep (py_split newline transcript)) →
  item ≠ "" ∧ py_in (String newline "") item = false ∧ py_strip item = item
  ∧ ∃ line, line ∈ py_split newline transcript ∧ keep line = true
            ∧ item = py_strip line.
Proof.
  intros Hkeep Hin. apply elem_of_take in Hin as (i & Hin & _).
  apply list_elem_of_lookup_2, list_elem_of_fmap in Hin as (line & -> & Hline).
  apply list_elem_of_In, filter_In in Hline as [Hline Hkept].
  apply list_elem_of_In in Hline.
  destruct (Hkeep line Hkept) as (c & Hc & Hhas).
  split; [by apply (py_strip_keeps c) |].
  split; [by apply py_strip_no_char, (py_split_no_sep newline transcript) |].
  split; [apply py_strip_py_strip |]. by exists line.
Qed.

Lemma platform_line_has_text (line : string) :
  mentions_platform line = true →
  ∃ c, isspace c = false ∧ is_substring (String c "") line.
Proof.
  intros (platform & Hin & Hsub)%mentions_platform_spec.
  unfold platforms in Hin.
  repeat (apply elem_of_cons in Hin as [-> | Hin];
          [by eapply mentioned_word_char; [|exact Hsub] |]).
  by apply elem_of_nil in Hin.
Qed.

Lemma campaign_line_has_text (line : string) :
  mentions_campaign line = true →
  ∃ c, isspace c = false ∧ is_substring (String c "") line.
Proof.
  intros [Hsub | Hsub]%mentions_campaign_spec;
    by eapply mentioned_word_char; [|exact Hsub].
Qed.

Lemma extracted_post_shape (transcript post : string) :
  post ∈ _extract_social_posts transcript →
  post ≠ "" ∧ py_in (String newline "") post = false ∧ py_strip post = post
  ∧ ∃ line, line ∈ py_split newline transcript
            ∧ mentions_platform line = true ∧ post = py_strip line.
Proof.
  rewrite extract_social_posts_filter.
  apply (kept_line_shape mentions_platform 7 transcript post
           platform_line_has_text).
Qed.

Lemma extracted_idea_shape (transcript idea : string) :
  idea ∈ _extract_campaign_ideas transcript →
  idea ≠ "" ∧ py_in (String newline "") idea = false ∧ py_strip idea = idea
  ∧ ∃ line, line ∈ py_split newline transcript
            ∧ mentions_campaign line = true ∧ idea = py_strip line.
Proof.
  rewrite extract_campaign_ideas_filter.
  apply (kept_line_shape mentions_campaign 5 transcript idea
           campaign_line_has_text).
Qed.

(** For every transcript the social-posts artifact has at most 7 entries
    and the campaign-ideas artifact at most 5, and every entry of either is
    a non-empty text without a newline and without white space at its
    ends, namely the stripped form of a transcript line that names a
    platform (a campaign or an idea). *)
Theorem extracted_lists_are_bounded_clean_lines (transcript : string) :
  length (_extract_social_posts transcript) ≤ 7
  ∧ length (_extract_campaign_ideas transcript) ≤ 5
  ∧ (∀ post, post ∈ _extract_social_posts transcript →
       post ≠ "" ∧ py_in (String newline "") post = false
       ∧ py_strip post = post
       ∧ ∃ line, line ∈ py_split newline transcript
                 ∧ mentions_platform line = true ∧ post = py_strip line)
  ∧ (∀ idea, idea ∈ _extract_campaign_ideas transcript →
       idea ≠ "" ∧ py_in (String newline "") idea = false
       ∧ py_strip idea = idea
       ∧ ∃ line, line ∈ py_split newline transcript
                 ∧ mentions_campaign line = true ∧ idea = py_strip line).
Proof.
  split; [rewrite extract_social_posts_filter, length_take; lia |].
  split; [rewrite extract_campaign_ideas_filter, length_take; lia |].
  split; [apply extracted_post_shape | apply extracted_idea_shape].
Qed.

Lemma stored_list_round_trip (items : list string) :
  Forall (λ item, item ≠ "" ∧ py_in (String newline "") item = false) items →
  split_if_any (Some (py_join (String newline "") items))
  = match items with [] => None | _ :: _ => Some items end.
Proof.
  intros Hitems. destruct items as [|x items]; [done |].
  rewrite split_if_any_spec.
  assert (py_join (String newline "") (x :: items) ≠ "") as Hne.
  { apply py_join_nonempty; [done |]. eapply Forall_impl; [exact Hitems |].
    by intros ? [? _]. }
  destruct (py_join _ (x :: items)) as [|a joined] eqn:Hjoin; [done |].
  rewrite <- Hjoin. f_equal. apply py_split_join; [done |].
  eapply Forall_impl; [exact Hitems |]. by intros ? [_ ?].
Qed.

Lemma extracted_posts_round_trip (transcript : string) :
  split_if_any
    (Some (py_join (String newline "") (_extract_social_posts transcript)))
  = match _extract_social_posts transcript with
    | [] => None
    | _ :: _ => Some (_extract_social_posts transcript)
    end.
Proof.
  apply stored_list_round_trip, Forall_forall. intros item Hin.
  by destruct (extracted_post_shape transcript item Hin) as (? & ? & _).
Qed.

Lemma extracted_ideas_round_trip (transcript : string) :
  split_if_any
    (Some (py_join (String newline "") (_extract_campaign_ideas transcript)))
  = match _extract_campaign_ideas transcript with
    | [] => None
    | _ :: _ => Some (_extract_campaign_ideas transcript)
    end.
Proof.
  apply stored_list_round_trip, Forall_forall. intros item Hin.
  by destruct (extracted_idea_shape transcript item Hin) as (? & ? & _).
Qed.

(** Joining an extracted list with newlines, as [execute_task] stores it,
    and projecting the stored text, as [task_to_result] does, gives the
    extracted list back when it has entries, and absent when it has none. *)
Theorem extracted_lists_round_trip (transcript : string) :
  split_if_any
    (Some (py_join (String newline "") (_extract_social_posts transcript)))
  = match _extract_social_posts transcript with
    | [] => None
    | _ :: _ => Some (_extract_social_posts transcript)
    end
  ∧ split_if_any
      (Some (py_join (String newline "") (_extract_campaign_ideas transcript)))
    = match _extract_campaign_ideas transcript with
      | [] => None
      | _ :: _ => Some (_extract_campaign_ideas transcript)
      end.
Proof.
  split; [apply extracted_posts_round_trip | apply extracted_ideas_round_trip].
Qed.

(** ** project to result record *)

Lemma TaskStatus_of_value (status : TaskStatus) :
  TaskStatus_of (value status) = Returned status.
Proof. by destruct status. Qed.

Lemma TaskStatus_of_Returned (text : string) (status : TaskStatus) :
  TaskStatus_of text = Returned status → text = value status.
Proof.
  unfold TaskStatus_of.
  repeat match goal with
         | |- context [String.eqb text ?s] =>
             destruct (String.eqb_spec text s) as [->|_]; [by intros [= <-] |]
         end.
  done.
Qed.

Lemma task_to_result_fields (task : MarketingTask.t) :
  match task_to_result task with
  | Returned record => TaskResult.task_id record = MarketingTask.task_id task
  | Raised _ => True
  end.
Proof.
  unfold task_to_result. rewrite outcome_bind_run.
  by destruct (TaskStatus_of (MarketingTask.status task)).
Qed.

(** [task_to_result] returns a record exactly for the rows whose status
    text is the value of a task status, and then the record has that
    status and the row's identifier, topic, timestamps, content strategy,
    blog outline and error message; for any other status text it raises,
    naming the text. *)
Theorem task_to_result_needs_a_status (task : MarketingTask.t) :
  match task_to_result task with
  | Returned record =>
      MarketingTask.status task = value (TaskResult.status record)
      ∧ TaskResult.task_id record = MarketingTask.task_id task
      ∧ TaskResult.topic record = MarketingTask.topic task
      ∧ TaskResult.created_at record = MarketingTask.created_at task
      ∧ TaskResult.completed_at record = MarketingTask.completed_at task
      ∧ TaskResult.content_strategy record = MarketingTask.content_strategy task
      ∧ TaskResult.blog_outline record = MarketingTask.blog_outline task
      ∧ TaskResult.error_message record = MarketingTask.error_message task
  | Raised e =>
      (∀ status, MarketingTask.status task ≠ value status)
      ∧ e = "'" +:+ MarketingTask.status task +:+ "' is not a valid TaskStatus"
  end.
Proof.
  unfold task_to_result. rewrite outcome_bind_run.
  destruct (TaskStatus_of (MarketingTask.status task)) as [status|e] eqn:Hst.
  - cbn. split; [by apply TaskStatus_of_Returned |]. by repeat split.
  - split.
    + intros status Heq. by rewrite Heq, TaskStatus_of_value in Hst.
    + unfold TaskStatus_of in Hst.
      repeat (destruct (String.eqb _ _); [done |]). by injection Hst.
Qed.

(** ** A completed run, as served *)

(** On a reachable store, when the pipeline of a stored task returns a
    transcript and the task is still wanted at both checkpoints, the record
    [task_to_result] builds from the row [execute_task] stored has status
    completed, the current time as completion time, no error message, the
    content strategy and blog outline extracted from the transcript, and as
    social posts and campaign ideas exactly the extracted lists (absent
    when a list is empty); the stored [result] is the transcript. *)
Theorem completed_run_is_served_as_extracted
    (L : CrewLib) (settings : Settings) (others : Concurrency)
    (task_id : string) (w : World) (row : MarketingTask.t)
    (crew : Crew L) (transcript : string) :
  store_fault w = None → session w = ∅ →
  store w !! task_id = Some row →
  MarketingTask.status row ≠ value CANCELLED →
  default false
    (at_commit others (<[task_id:=true]> (_running_tasks w)) !! task_id)
  = true →
  default false
    (during_pipeline others
       (at_commit others (<[task_id:=true]> (_running_tasks w))) !! task_id)
  = true →
  create_marketing_crew L settings (MarketingTask.topic row)
    (MarketingTask.language row) = Returned crew →
  kickoff_str L crew = Returned transcript →
  ∃ row' w' record,
    execute_task L settings others task_id w = (Returned (Some row'), w')
    ∧ store w' !! task_id = Some row'
    ∧ MarketingTask.result row' = Some transcript
    ∧ task_to_result row' = Returned record
    ∧ TaskResult.status record = COMPLETED
    ∧ TaskResult.completed_at record = Some (clock w)
    ∧ TaskResult.error_message record = None
    ∧ TaskResult.content_strategy record = _extract_content_strategy transcript
    ∧ TaskResult.blog_outline record = _extract_blog_outline transcript
    ∧ TaskResult.social_media_posts record
      = match _extract_social_posts transcript with
        | [] => None
        | _ :: _ => Some (_extract_social_posts transcript)
        end
    ∧ TaskResult.campaign_ideas record
      = match _extract_campaign_ideas transcript with
        | [] => None
        | _ :: _ => Some (_extract_campaign_ideas transcript)
        end.
Proof.
  intros Hf Hs Hrow Hst Hflag Hflag' Hcrew Hkick.
  assert (execute_marketing_task L settings (MarketingTask.topic row)
            (MarketingTask.language row)
          = Returned {| Bundle.status := Some "completed";
                        Bundle.topic := Some (MarketingTask.topic row);
                        Bundle.result := Some transcript;
                        Bundle.content_strategy :=
                          Some (_extract_content_strategy transcript);
                        Bundle.social_media_posts :=
                          Some (_extract_social_posts transcript);
                        Bundle.blog_outline :=
                          Some (_extract_blog_outline transcript);
                        Bundle.campaign_ideas :=
                          Some (_extract_campaign_ideas transcript);
                        Bundle.error_message := None |}) as Hrun.
  { unfold execute_marketing_task. rewrite Hcrew, outcome_bind_run.
    by rewrite Hkick. }
  rewrite (execute_task_persisted L settings others task_id w row
             Hf Hs Hrow _ Hst Hflag Hrun Hflag').
  pose proof (extracted_posts_round_trip transcript) as Hposts.
  pose proof (extracted_ideas_round_trip transcript) as Hideas.
  eexists _, _, _. split; [reflexivity |]. split; [apply lookup_insert_eq |].
  split; [reflexivity |]. split; [reflexivity |].
  cbn. rewrite Hposts, Hideas. by repeat split.
Qed.

Lemma completed_run_is_served_as_extracted_example :
  ∃ row' w' record,
    execute_task (scripted_lib (Returned nine_posts)) en quiet "t1"
      (world_of (row_t1 "pending")) = (Returned (Some row'), w')
    ∧ store w' !! "t1" = Some row'
    ∧ MarketingTask.result row' = Some nine_posts
    ∧ task_to_result row' = Returned record
    ∧ TaskResult.status record = COMPLETED
    ∧ TaskResult.completed_at record = Some 9
    ∧ TaskResult.error_message record = None
    ∧ TaskResult.content_strategy record = _extract_content_strategy nine_posts
    ∧ TaskResult.blog_outline record = _extract_blog_outline nine_posts
    ∧ TaskResult.social_media_posts record
      = match _extract_social_posts nine_posts with
        | [] => None
        | _ :: _ => Some (_extract_social_posts nine_posts)
        end
    ∧ TaskResult.campaign_ideas record
      = match _extract_campaign_ideas nine_posts with
        | [] => None
        | _ :: _ => Some (_extract_campaign_ideas nine_posts)
        end.
Proof.
  eapply (completed_run_is_served_as_extracted
            (scripted_lib (Returned nine_posts)) en quiet "t1"
            (world_of (row_t1 "pending")) (row_t1 "pending") _ nine_posts);
    [reflexivity | reflexivity | reflexivity | discriminate
    | reflexivity | reflexivity | reflexivity | reflexivity].
Defined.

(** ** The task endpoints *)

Lemma api_get_task_run (task_id : string) (w : World) :
  Api.get_task task_id w
  = match get_task task_id (with_session (λ _, ∅) w) with
    | (Returned None, w') => (Returned (ReplyError 404 "Task not found"), w')
    | (Returned (Some task), w') =>
        match task_to_result task with
        | Returned record => (Returned (Reply200 record), w')
        | Raised e => (Raised e, w')
        end
    | (Raised e, w') => (Raised e, w')
    end.
Proof.
  unfold Api.get_task. rewrite bind_run. unfold new_session, modify.
  rewrite bind_run.
  by destruct (get_task task_id _) as [[[task|]|e] w'].
Qed.

(** GET /tasks/{task_id} never changes the store or the registry.  It
    answers 500 when the store cannot be reached, 404 "Task not found"
    when the store holds no row under the identifier, and otherwise 200
    with the projection of the stored row (500 if the row's status text is
    not a task status). *)
Theorem api_get_task_replies (task_id : string) (w : World) :
  store (serve (Api.get_task task_id) w).2 = store w
  ∧ _running_tasks (serve (Api.get_task task_id) w).2 = _running_tasks w
  ∧ (serve (Api.get_task task_id) w).1
    = match store_fault w, store w !! task_id with
      | Some _, _ => ReplyError 500 "Internal Server Error"
      | None, None => ReplyError 404 "Task not found"
      | None, Some row =>
          match task_to_result row with
          | Returned record => Reply200 record
          | Raised _ => ReplyError 500 "Internal Server Error"
          end
      end.
Proof.
  unfold serve. rewrite api_get_task_run.
  set (w0 := with_session (λ _, ∅) w).
  destruct (store_fault w) as [e|] eqn:Hf.
  - by rewrite (get_task_unreachable task_id w0 e).
  - destruct (store w !! task_id) as [row|] eqn:Hrow.
    + rewrite (get_task_stored task_id w0 row) by done.
      by destruct (task_to_result row).
    + by rewrite (get_task_unknown task_id w0).
Qed.

Lemma api_cancel_task_run (task_id : string) (w : World) :
  Api.cancel_task task_id w
  = match cancel_task task_id (with_session (λ _, ∅) w) with
    | (Returned None, w') => (Returned (ReplyError 404 "Task not found"), w')
    | (Returned (Some task), w') =>
        match task_to_result task with
        | Returned record => (Returned (Reply200 record), w')
        | Raised e => (Raised e, w')
        end
    | (Raised e, w') => (Raised e, w')
    end.
Proof.
  unfold Api.cancel_task. rewrite bind_run. unfold new_session, modify.
  rewrite bind_run.
  by destruct (cancel_task task_id _) as [[[task|]|e] w'].
Qed.

(** On a reachable store, POST /tasks/{task_id}/cancel answers 404 for an
    unknown identifier and changes nothing; for a pending or in_progress
    task it answers 200 with a record whose status is cancelled, whose
    completion time is the current time and whose error message is "Task
    was cancelled by user", and a following GET /tasks/{task_id} answers
    with the same record. *)
Theorem api_cancel_task_replies (task_id : string) (w : World) :
  store_fault w = None →
  match store w !! task_id with
  | None =>
      (serve (Api.cancel_task task_id) w).1 = ReplyError 404 "Task not found"
      ∧ store (serve (Api.cancel_task task_id) w).2 = store w
      ∧ _running_tasks (serve (Api.cancel_task task_id) w).2 = _running_tasks w
  | Some row =>
      MarketingTask.status row = value PENDING
      ∨ MarketingTask.status row = value IN_PROGRESS →
      ∃ record,
        (serve (Api.cancel_task task_id) w).1 = Reply200 record
        ∧ TaskResult.status record = CANCELLED
        ∧ TaskResult.completed_at record = Some (clock w)
        ∧ TaskResult.error_message record = Some "Task was cancelled by user"
        ∧ TaskResult.task_id record = MarketingTask.task_id row
        ∧ TaskResult.topic record = MarketingTask.topic row
        ∧ (serve (Api.get_task task_id) (serve (Api.cancel_task task_id) w).2).1
          = Reply200 record
  end.
Proof.
  intros Hf.
  destruct (store w !! task_id) as [row|] eqn:Hrow.
  - intros Hst. unfold serve. rewrite api_cancel_task_run.
    rewrite (cancel_task_cancellable task_id (with_session (λ _, ∅) w) row)
      by done.
    cbn. eexists. split; [reflexivity |]. repeat split.
    rewrite api_get_task_run.
    rewrite (get_task_stored task_id _
               (MarketingTask.set_error_message
                  (Some "Task was cancelled by user")
                  (MarketingTask.set_completed_at (Some (clock w))
                     (MarketingTask.set_status (value CANCELLED) row))));
      [reflexivity | done | done | cbn; apply lookup_insert_eq].
  - unfold serve. rewrite api_cancel_task_run.
    by rewrite (cancel_task_unknown task_id (with_session (λ _, ∅) w)).
Qed.

Lemma api_cancel_task_replies_example :
  ∃ record,
    (serve (Api.cancel_task "t1") (world_of (row_t1 "in_progress"))).1
    = Reply200 record
    ∧ TaskResult.status record = CANCELLED
    ∧ TaskResult.completed_at record = Some 9
    ∧ TaskResult.error_message record = Some "Task was cancelled by user"
    ∧ TaskResult.task_id record = "t1"
    ∧ TaskResult.topic record = "Launch eco-friendly product line"
    ∧ (serve (Api.get_task "t1")
         (serve (Api.cancel_task "t1") (world_of (row_t1 "in_progress"))).2).1
      = Reply200 record.
Proof.
  exact (api_cancel_task_replies "t1" (world_of (row_t1 "in_progress")) eq_refl
           (or_intror eq_refl)).
Defined.

(** On a reachable store, DELETE /tasks/{task_id} answers 404 for an
    unknown identifier and changes nothing; for a stored one it answers 200
    with the confirmation message and the identifier, the row and the
    registry entry are removed, and a following GET /tasks/{task_id}
    answers 404. *)
Theorem api_delete_task_replies (task_id : string) (w : World) :
  store_fault w = None →
  match store w !! task_id with
  | None =>
      (serve (Api.delete_task task_id) w).1 = ReplyError 404 "Task not found"
      ∧ store (serve (Api.delete_task task_id) w).2 = store w
      ∧ _running_tasks (serve (Api.delete_task task_id) w).2 = _running_tasks w
  | Some _ =>
      (serve (Api.delete_task task_id) w).1
      = Reply200 ("Task deleted successfully", task_id)
      ∧ store (serve (Api.delete_task task_id) w).2 = delete task_id (store w)
      ∧ _running_tasks (serve (Api.delete_task task_id) w).2
        = delete task_id (_running_tasks w)
      ∧ (serve (Api.get_task task_id) (serve (Api.delete_task task_id) w).2).1
        = ReplyError 404 "Task not found"
  end.
Proof.
  intros Hf.
  assert (Api.delete_task task_id w
          = match delete_task task_id (with_session (λ _, ∅) w) with
            | (Returned true, w') =>
                (Returned (Reply200 ("Task deleted successfully", task_id)), w')
            | (Returned false, w') =>
                (Returned (ReplyError 404 "Task not found"), w')
            | (Raised e, w') => (Raised e, w')
            end) as Hrun.
  { unfold Api.delete_task. rewrite bind_run. unfold new_session, modify.
    rewrite bind_run. by destruct (delete_task task_id _) as [[[]|e] w']. }
  unfold serve. rewrite Hrun.
  destruct (store w !! task_id) as [row|] eqn:Hrow.
  - rewrite (delete_task_stored task_id (with_session (λ _, ∅) w) row) by done.
    cbn. repeat split. rewrite api_get_task_run.
    by rewrite get_task_unknown; [| done | cbn; apply lookup_delete_eq].
  - by rewrite (delete_task_unknown task_id (with_session (λ _, ∅) w)).
Qed.

Lemma api_delete_task_replies_example :
  (serve (Api.delete_task "t1") (world_of done_t1)).1
  = Reply200 ("Task deleted successfully", "t1")
  ∧ store (serve (Api.delete_task "t1") (world_of done_t1)).2
    = delete "t1" (store (world_of done_t1))
  ∧ _running_tasks (serve (Api.delete_task "t1") (world_of done_t1)).2
    = delete "t1" (_running_tasks (world_of done_t1))
  ∧ (serve (Api.get_task "t1")
       (serve (Api.delete_task "t1") (world_of done_t1)).2).1
    = ReplyError 404 "Task not found".
Proof.
  exact (api_delete_task_replies "t1" (world_of done_t1) eq_refl).
Defined.

Lemma api_create_task_fresh (uuid4 topic : string) (language : option string)
    (w : World) :
  store_fault w = None → store w !! uuid4 = None →
  let task :=
    {| MarketingTask.id := next_id (store w);
       MarketingTask.task_id := uuid4;
       MarketingTask.topic := topic;
       MarketingTask.status := "pending";
       MarketingTask.created_at := clock w;
       MarketingTask.completed_at := None;
       MarketingTask.result := None;
       MarketingTask.content_strategy := None;
       MarketingTask.social_media_posts := None;
       MarketingTask.blog_outline := None;
       MarketingTask.campaign_ideas := None;
       MarketingTask.error_message := None;
       MarketingTask.language := language |} in
  Api.create_task uuid4 topic language w
  = (Returned
       (Reply200
          {| MarketingTaskResponse.task_id := uuid4;
             MarketingTaskResponse.topic := topic;
             MarketingTaskResponse.status := PENDING;
             MarketingTaskResponse.created_at := clock w;
             MarketingTaskResponse.result := None |},
        [uuid4]),
     with_session (λ _, {[uuid4 := task]}) (with_store (insert uuid4 task) w)).
Proof.
  intros Hf Hfree task. unfold Api.create_task.
  rewrite bind_run. unfold new_session, modify, try_exceptM. rewrite bind_run.
  rewrite (create_task_fresh uuid4 topic language (with_session (λ _, ∅) w))
    by done.
  by destruct w.
Qed.

(** POST /tasks always answers, and never with an unhandled error.  On a
    reachable store and with an unused identifier it answers 200 with the
    identifier, the topic, status pending, the creation time and no result,
    and schedules the background execution of exactly that identifier;
    when the store cannot be reached or the identifier is taken it answers
    500 with a detail that starts "Error creating task: ", schedules
    nothing and leaves the store and the registry as they were. *)
Theorem api_create_task_replies
    (uuid4 topic : string) (language : option string) (w : World) :
  ∃ reply scheduled w',
    Api.create_task uuid4 topic language w = (Returned (reply, scheduled), w')
    ∧ match store_fault w, store w !! uuid4 with
      | None, None =>
          reply = Reply200
                    {| MarketingTaskResponse.task_id := uuid4;
                       MarketingTaskResponse.topic := topic;
                       MarketingTaskResponse.status := PENDING;
                       MarketingTaskResponse.created_at := clock w;
                       MarketingTaskResponse.result := None |}
          ∧ scheduled = [uuid4]
          ∧ (MarketingTask.status <$> store w' !! uuid4) = Some (value PENDING)
          ∧ _running_tasks w' = _running_tasks w
      | _, _ =>
          (∃ e, reply = ReplyError 500 ("Error creating task: " +:+ e))
          ∧ scheduled = []
          ∧ store w' = store w
          ∧ _running_tasks w' = _running_tasks w
      end.
Proof.
  destruct (store_fault w) as [e|] eqn:Hf;
    [|destruct (store w !! uuid4) as [row|] eqn:Hrow].
  - destruct (create_task_refused uuid4 topic language
                (with_session (λ _, ∅) w)) as [e' He']; [left; by eexists |].
    unfold Api.create_task. rewrite bind_run.
    unfold new_session, modify, try_exceptM. rewrite bind_run, He'.
    eexists _, _, _. split; [reflexivity |]. split; [by eexists |]. done.
  - destruct (create_task_refused uuid4 topic language
                (with_session (λ _, ∅) w)) as [e' He']; [right; by eexists |].
    unfold Api.create_task. rewrite bind_run.
    unfold new_session, modify, try_exceptM. rewrite bind_run, He'.
    eexists _, _, _. split; [reflexivity |]. split; [by eexists |]. done.
  - rewrite (api_create_task_fresh uuid4 topic language w Hf Hrow).
    eexists _, _, _. split; [reflexivity |]. split; [done |].
    split; [done |]. split; [|done]. cbn. by rewrite lookup_insert_eq.
Qed.

Lemma bundle_status_cases
    (L : CrewLib) (settings : Settings) (topic : string)
    (language : option string) (bundle : Bundle.t) :
  execute_marketing_task L settings topic language = Returned bundle →
  Bundle.status bundle = Some "completed"
  ∨ (Bundle.status bundle = Some "failed"
     ∧ Bundle.social_media_posts bundle = None
     ∧ Bundle.campaign_ideas bundle = None).
Proof.
  unfold execute_marketing_task.
  destruct (create_marketing_crew L settings topic language) as [crew|e];
    [|done].
  rewrite outcome_bind_run.
  destruct (kickoff_str L crew); intros [= <-]; [by left | by right].
Qed.

(** A task created through POST /tasks on a reachable store, once its
    scheduled background execution has run without a cancel or delete
    request in between, is served by GET /tasks/{task_id} with status
    completed or failed, the current time as completion time and the topic
    it was created with, and the registry holds no entry for it. *)
Theorem created_task_runs_to_an_end
    (L : CrewLib) (settings : Settings) (others : Concurrency)
    (uuid4 topic : string) (language : option string) (w : World) :
  store_fault w = None → store w !! uuid4 = None →
  (∀ registry, at_commit others registry !! uuid4 = registry !! uuid4) →
  (∀ registry, during_pipeline others registry !! uuid4 = registry !! uuid4) →
  ∃ reply w1 w2 record,
    Api.create_task uuid4 topic language w = (Returned (reply, [uuid4]), w1)
    ∧ run_background L settings others [uuid4] w1 = (Returned (), w2)
    ∧ (serve (Api.get_task uuid4) w2).1 = Reply200 record
    ∧ (TaskResult.status record = COMPLETED
       ∨ TaskResult.status record = FAILED)
    ∧ TaskResult.completed_at record = Some (clock w)
    ∧ TaskResult.topic record = topic
    ∧ TaskResult.task_id record = uuid4
    ∧ _running_tasks w2 !! uuid4 = None.
Proof.
  intros Hf Hfree Hcommit Hpipeline.
  pose proof (api_create_task_fresh uuid4 topic language w Hf Hfree) as Hcreate.
  cbv zeta in Hcreate.
  set (task := {| MarketingTask.id := next_id (store w);
                  MarketingTask.task_id := uuid4 |}) in Hcreate.
  set (w1 := with_session _ (with_store _ w)) in Hcreate.
  set (w0 := with_session (λ _, ∅) w1).
  assert (store_fault w0 = None) as Hf0 by done.
  assert (session w0 = ∅) as Hs0 by done.
  assert (store w0 !! uuid4 = Some task) as Hrow0 by apply lookup_insert_eq.
  assert (MarketingTask.status task ≠ value CANCELLED) as Hst by done.
  assert (default false
            (at_commit others (<[uuid4:=true]> (_running_tasks w0)) !! uuid4)
          = true) as Hflag by (by rewrite Hcommit, lookup_insert_eq).
  assert (default false
            (during_pipeline others
               (at_commit others (<[uuid4:=true]> (_running_tasks w0)))
             !! uuid4) = true) as Hflag'
    by (by rewrite Hpipeline, Hcommit, lookup_insert_eq).
  destruct (execute_task_async_returns L settings others uuid4 w1)
    as (w2 & Hasync & _ & Hw2).
  specialize (Hw2 Hf). fold w0 in Hw2.
  assert (run_background L settings others [uuid4] w1 = (Returned (), w2))
    as Hbackground.
  { unfold run_background. cbn [for_each]. by rewrite bind_run, Hasync. }
  assert (∃ row', store w2 !! uuid4 = Some row'
            ∧ session w2 = {[uuid4 := row']}
            ∧ store_fault w2 = None
            ∧ _running_tasks w2 !! uuid4 = None
            ∧ (MarketingTask.status row' = "completed"
               ∨ MarketingTask.status row' = "failed")
            ∧ MarketingTask.completed_at row' = Some (clock w)
            ∧ MarketingTask.topic row' = topic
            ∧ MarketingTask.task_id row' = uuid4) as (row' & Hrow' & _ & Hf2
              & Hgone & Hstatus & Hdone & Htopic & Hid).
  { destruct (execute_marketing_task L settings topic language)
      as [bundle|e] eqn:Hrun.
    - rewrite (execute_task_persisted L settings others uuid4 w0 task
                 Hf0 Hs0 Hrow0 bundle Hst Hflag Hrun Hflag') in Hw2.
      subst w2. eexists. cbn. split; [apply lookup_insert_eq |].
      split; [reflexivity |]. split; [done |].
      split; [apply lookup_delete_eq |].
      split; [|done].
      destruct (bundle_status_cases _ _ _ _ _ Hrun) as [Hb | (Hb & _)];
        rewrite Hb; auto.
    - rewrite (execute_task_pipeline_raised L settings others uuid4 w0 task
                 Hf0 Hs0 Hrow0 e Hst Hflag Hrun) in Hw2.
      rewrite Hflag' in Hw2.
      subst w2. eexists. cbn. split; [apply lookup_insert_eq |].
      split; [reflexivity |]. split; [done |].
      split; [apply lookup_delete_eq |]. split; [by right | done]. }
  assert (∃ status, TaskStatus_of (MarketingTask.status row') = Returned status
            ∧ (status = COMPLETED ∨ status = FAILED)) as (status & Hof & Hor).
  { destruct Hstatus as [-> | ->]; eexists; (split; [reflexivity |]); auto. }
  eexists _, w1, w2, _. split; [exact Hcreate |]. split; [exact Hbackground |].
  unfold serve. rewrite api_get_task_run.
  rewrite (get_task_stored uuid4 (with_session (λ _, ∅) w2) row') by done.
  unfold task_to_result. rewrite Hof. cbn. by repeat split.
Qed.

Lemma created_task_runs_to_an_end_example :
  ∃ reply w1 w2 record,
    Api.create_task "t2" "Shoes" None (world_of done_t1)
    = (Returned (reply, ["t2"]), w1)
    ∧ run_background (scripted_lib (Returned nine_posts)) en quiet ["t2"] w1
      = (Returned (), w2)
    ∧ (serve (Api.get_task "t2") w2).1 = Reply200 record
    ∧ (TaskResult.status record = COMPLETED
       ∨ TaskResult.status record = FAILED)
    ∧ TaskResult.completed_at record = Some 9
    ∧ TaskResult.topic record = "Shoes"
    ∧ TaskResult.task_id record = "t2"
    ∧ _running_tasks w2 !! "t2" = None.
Proof.
  apply (created_task_runs_to_an_end (scripted_lib (Returned nine_posts)) en
           quiet "t2" "Shoes" None (world_of done_t1));
    [reflexivity | reflexivity | reflexivity | reflexivity].
Defined.

(** ** Listing is read-only *)

(** GET /tasks changes neither the store nor the registry, in any world. *)
Theorem list_tasks_changes_nothing (w : World) :
  store (respond list_tasks w).2 = store w
  ∧ _running_tasks (respond list_tasks w).2 = _running_tasks w.
Proof.
  unfold respond, list_tasks. rewrite bind_run. unfold new_session, modify.
  unfold try_exceptM. rewrite bind_run.
  set (w0 := with_session (λ _, ∅) w).
  destruct (get_all_tasks_keeps_store w0) as [Hstore Hregistry].
  destruct (get_all_tasks w0) as [[tasks|e] w1]; [|done].
  unfold lift. by destruct (mapM task_to_result tasks).
Qed.

(** ** The rows stay filed under their identifier *)

Lemma execute_task_store_cases
    (L : CrewLib) (settings : Settings) (others : Concurrency)
    (task_id : string) (w : World) :
  session w = ∅ →
  store (execute_task L settings others task_id w).2 = store w
  ∨ ∃ row row', store w !! task_id = Some row
      ∧ MarketingTask.task_id row' = MarketingTask.task_id row
      ∧ store (execute_task L settings others task_id w).2
        = <[task_id:=row']> (store w).
Proof.
  intros Hs. destruct (store_fault w) as [e|] eqn:Hf.
  { left. unfold execute_task. by rewrite bind_run, (get_task_unreachable _ _ e). }
  destruct (store w !! task_id) as [row|] eqn:Hrow.
  2: { left. by rewrite execute_task_unknown. }
  destruct (String.eqb_spec (MarketingTask.status row) (value CANCELLED))
    as [Hst|Hst].
  { left. by rewrite (execute_task_already_cancelled L settings others
                        task_id w row). }
  right. exists row.
  destruct (default false
              (at_commit others (<[task_id:=true]> (_running_tasks w))
               !! task_id)) eqn:Hflag.
  2: { rewrite (execute_task_cancelled_before L settings others task_id w row
                  Hf Hs Hrow Hst Hflag). eexists; split; [done |]; split; [|reflexivity]; done. }
  destruct (execute_marketing_task L settings (MarketingTask.topic row)
              (MarketingTask.language row)) as [bundle|e] eqn:Hrun.
  - destruct (default false
                (during_pipeline others
                   (at_commit others (<[task_id:=true]> (_running_tasks w)))
                 !! task_id)) eqn:Hflag'.
    + rewrite (execute_task_persisted L settings others task_id w row
                 Hf Hs Hrow bundle Hst Hflag Hrun Hflag'). eexists; split; [done |]; split; [|reflexivity]; done.
    + rewrite (execute_task_cancelled_during L settings others task_id w row
                 Hf Hs Hrow bundle Hst Hflag Hrun Hflag'). eexists; split; [done |]; split; [|reflexivity]; done.
  - rewrite (execute_task_pipeline_raised L settings others task_id w row
               Hf Hs Hrow e Hst Hflag Hrun).
    eexists. split; [done |]. split; [|reflexivity].
    by destruct (default false (during_pipeline _ _ !! _)).
Qed.

Lemma cancel_task_store_cases (task_id : string) (w : World) :
  session w = ∅ →
  store (cancel_task task_id w).2 = store w
  ∨ ∃ row row', store w !! task_id = Some row
      ∧ MarketingTask.task_id row' = MarketingTask.task_id row
      ∧ store (cancel_task task_id w).2 = <[task_id:=row']> (store w).
Proof.
  intros Hs. destruct (store_fault w) as [e|] eqn:Hf.
  { left. unfold cancel_task. by rewrite bind_run, (get_task_unreachable _ _ e). }
  destruct (store w !! task_id) as [row|] eqn:Hrow.
  2: { left. by rewrite cancel_task_unknown. }
  destruct (String.eqb_spec (MarketingTask.status row) (value PENDING))
    as [Hp|Hp];
    [|destruct (String.eqb_spec (MarketingTask.status row) (value IN_PROGRESS))
        as [Hi|Hi]].
  - right. exists row. rewrite (cancel_task_cancellable task_id w row) by auto.
    eexists; split; [done |]; split; [|reflexivity]; done.
  - right. exists row. rewrite (cancel_task_cancellable task_id w row) by auto.
    eexists; split; [done |]; split; [|reflexivity]; done.
  - left. by rewrite (cancel_task_not_cancellable task_id w row).
Qed.

(** Every row is stored under its own identifier: if that holds before
    [create_task], [cancel_task], [execute_task], [execute_task_async] or
    [delete_task], each run in a session of its own, it holds after, in
    every world and whatever the pipeline does. *)
Theorem rows_stay_under_their_identifier
    (L : CrewLib) (settings : Settings) (others : Concurrency) (w : World) :
  let filed (rows : gmap string MarketingTask.t) :=
    ∀ key row, rows !! key = Some row → MarketingTask.task_id row = key in
  session w = ∅ → filed (store w) →
  (∀ uuid4 topic language,
     filed (store (create_task uuid4 topic language w).2))
  ∧ (∀ task_id, filed (store (cancel_task task_id w).2))
  ∧ (∀ task_id, filed (store (execute_task L settings others task_id w).2))
  ∧ (∀ task_id,
       filed (store (execute_task_async L settings others task_id w).2))
  ∧ (∀ task_id, filed (store (delete_task task_id w).2)).
Proof.
  intros filed Hs Hfiled.
  assert (∀ task_id row row' rows,
            filed rows → rows !! task_id = Some row →
            MarketingTask.task_id row' = MarketingTask.task_id row →
            filed (<[task_id:=row']> rows)) as Hupdate.
  { intros task_id row row' rows Hrows Hrow Hsame key r.
    destruct (decide (task_id = key)) as [<-|Hne].
    - rewrite lookup_insert_eq. intros [= <-]. rewrite Hsame. by apply Hrows.
    - rewrite lookup_insert_ne by done. apply Hrows. }
  split; [|split; [|split; [|split]]].
  - intros uuid4 topic language.
    destruct (store_fault w) as [e|] eqn:Hf;
      [|destruct (store w !! uuid4) as [row|] eqn:Hrow].
    + destruct (create_task_refused uuid4 topic language w) as [e' ->];
        [left; by eexists | done].
    + destruct (create_task_refused uuid4 topic language w) as [e' ->];
        [right; by eexists | done].
    + rewrite (create_task_fresh uuid4 topic language w Hf Hs Hrow).
      intros key r. cbn. destruct (decide (uuid4 = key)) as [<-|Hne].
      * rewrite lookup_insert_eq. by intros [= <-].
      * rewrite lookup_insert_ne by done. apply Hfiled.
  - intros task_id.
    destruct (cancel_task_store_cases task_id w Hs)
      as [-> | (row & row' & Hrow & Hsame & ->)]; [done |].
    by apply (Hupdate task_id row).
  - intros task_id.
    destruct (execute_task_store_cases L settings others task_id w Hs)
      as [-> | (row & row' & Hrow & Hsame & ->)]; [done |].
    by apply (Hupdate task_id row).
  - intros task_id.
    destruct (execute_task_async_returns L settings others task_id w)
      as (w' & -> & Hfault & Hok).
    cbn [snd]. destruct (store_fault w) as [e|] eqn:Hf.
    + destruct Hfault as [-> _]; [by eexists | done].
    + rewrite (Hok eq_refl).
      match goal with
      | |- filed (store (execute_task _ _ _ _ ?w0).2) =>
          destruct (execute_task_store_cases L settings others task_id w0
                      eq_refl)
            as [Hsame | (row & row' & Hrow & Hsame & Hstore)]
      end.
      * by rewrite Hsame.
      * rewrite Hstore. by apply (Hupdate task_id row).
  - intros task_id. destruct (store_fault w) as [e|] eqn:Hf.
    + unfold delete_task. by rewrite bind_run, (get_task_unreachable _ _ e).
    + destruct (store w !! task_id) as [row|] eqn:Hrow.
      * rewrite (delete_task_stored task_id w row Hf Hs Hrow). cbn.
        intros key r [_ Hr]%lookup_delete_Some. by apply Hfiled.
      * by rewrite delete_task_unknown.
Qed.

Lemma rows_stay_under_their_identifier_example :
  ∃ row,
    store (execute_task (scripted_lib (Returned nine_posts)) en quiet "t1"
             (world_of (row_t1 "pending"))).2 !! "t1" = Some row
    ∧ MarketingTask.task_id row = "t1".
Proof.
  assert (∀ key row,
            store (world_of (row_t1 "pending")) !! key = Some row
            → MarketingTask.task_id row = key) as Hfiled.
  { intros key row Hrow. cbn in Hrow.
    apply lookup_singleton_Some in Hrow as [<- <-]. reflexivity. }
  destruct (rows_stay_under_their_identifier
              (scripted_lib (Returned nine_posts)) en quiet
              (world_of (row_t1 "pending")) eq_refl Hfiled)
    as (_ & _ & Hexecute & _).
  eexists. split; [vm_compute; reflexivity |].
  apply (Hexecute "t1" "t1"). vm_compute. reflexivity.
Defined.

(** ** The console's task list *)

Lemma has_key_spec {A} (key : string) (bindings : list (string * A)) :
  Console.has_key key bindings = true ↔ key ∈ bindings.*1.
Proof.
  unfold Console.has_key. rewrite existsb_exists, list_elem_of_fmap. split.
  - intros (b & Hin & Heq). exists b. apply String.eqb_eq in Heq.
    split; [done | by apply list_elem_of_In].
  - intros (b & -> & Hin). exists b. split; [by apply list_elem_of_In |].
    apply String.eqb_refl.
Qed.

Lemma truthy_Some (text : string) : truthy (Some text) = true ↔ text ≠ "".
Proof. by destruct text. Qed.

(** The loop of [deduplicate], started with the bindings [seen]. *)
Lemma deduplicate_loop (tasks : list TaskResult.t)
    (seen : list (string * TaskResult.t)) :
  let step := λ (unique_tasks_dict : list (string * TaskResult.t)) task,
    let task_id := TaskResult.task_id task in
    if truthy (Some task_id) then
      if negb (Console.has_key task_id unique_tasks_dict)
      then unique_tasks_dict ++ [(task_id, task)]
      else unique_tasks_dict
    else unique_tasks_dict in
  NoDup seen.*1 →
  ∃ added,
    fold_left step tasks seen = seen ++ added
    ∧ NoDup (seen ++ added).*1
    ∧ sublist added.*2 tasks
    ∧ Forall (λ binding, binding.1 = TaskResult.task_id binding.2
                         ∧ binding.1 ≠ "") added
    ∧ (∀ earlier task later,
         tasks = earlier ++ task :: later →
         TaskResult.task_id task ≠ "" →
         TaskResult.task_id task ∉ TaskResult.task_id <$> earlier →
         TaskResult.task_id task ∉ seen.*1 →
         task ∈ added.*2).
Proof.
  intros step. revert seen. induction tasks as [|task tasks IH]; intros seen Hnodup.
  - exists []. rewrite app_nil_r. split; [done |]. split; [done |].
    split; [constructor |]. split; [constructor |].
    intros earlier task later Heq. by destruct earlier.
  - cbn [fold_left]. unfold step at 2. cbv zeta.
    destruct (truthy (Some (TaskResult.task_id task))) eqn:Htruthy.
    + destruct (Console.has_key (TaskResult.task_id task) seen) eqn:Hkey; cbn [negb].
      * destruct (IH seen Hnodup) as (added & -> & Hnd & Hsub & Hall & Hfirst).
        exists added. split; [done |]. split; [done |].
        split; [by constructor |]. split; [done |].
        intros earlier t later Heq Hne Hearlier Hseen.
        destruct earlier as [|e earlier]; cbn in Heq; injection Heq as -> ->.
        -- apply has_key_spec in Hkey. done.
        -- apply (Hfirst earlier t later); try done.
           intros Hin. apply Hearlier. rewrite fmap_cons. by right.
      * assert (TaskResult.task_id task ∉ seen.*1) as Hnew.
        { intros Hin%has_key_spec. congruence. }
        destruct (IH (seen ++ [(TaskResult.task_id task, task)]))
          as (added & -> & Hnd & Hsub & Hall & Hfirst).
        { rewrite fmap_app. apply NoDup_app. split; [done |].
          split; [|apply NoDup_singleton].
          intros k Hk [= ->]%list_elem_of_singleton. done. }
        exists ((TaskResult.task_id task, task) :: added).
        rewrite <- app_assoc in *. cbn [app] in *.
        split; [done |]. split; [done |].
        split; [cbn; by constructor |].
        split; [constructor; [|done]; split; [done | by apply truthy_Some] |].
        intros earlier t later Heq Hne Hearlier Hseen.
        destruct earlier as [|e earlier]; cbn in Heq; injection Heq as -> ->.
        -- cbn. left.
        -- cbn. right. apply (Hfirst earlier t later); try done.
           ++ intros Hin. apply Hearlier. rewrite fmap_cons. by right.
           ++ rewrite fmap_app. intros [Hin | Hin]%elem_of_app; [done |].
              cbn in Hin. apply list_elem_of_singleton in Hin.
              apply Hearlier. rewrite fmap_cons, Hin. left.
    + destruct (IH seen Hnodup) as (added & -> & Hnd & Hsub & Hall & Hfirst).
      exists added. split; [done |]. split; [done |].
      split; [by constructor |]. split; [done |].
      intros earlier t later Heq Hne Hearlier Hseen.
      destruct earlier as [|e earlier]; cbn in Heq; injection Heq as -> ->.
      * apply truthy_Some in Hne. congruence.
      * apply (Hfirst earlier t later); try done.
        intros Hin. apply Hearlier. rewrite fmap_cons. by right.
Qed.

(** The deduplicated task list holds no identifier twice and no task
    without an identifier; it is the listed tasks with some left out, in
    their order; and for every identifier it keeps the first task listed
    with it. *)
Theorem deduplicate_keeps_first_occurrences (tasks : list TaskResult.t) :
  NoDup (TaskResult.task_id <$> Console.deduplicate tasks)
  ∧ sublist (Console.deduplicate tasks) tasks
  ∧ Forall (λ task, TaskResult.task_id task ≠ "") (Console.deduplicate tasks)
  ∧ (∀ earlier task later,
       tasks = earlier ++ task :: later →
       TaskResult.task_id task ≠ "" →
       TaskResult.task_id task ∉ TaskResult.task_id <$> earlier →
       task ∈ Console.deduplicate tasks).
Proof.
  destruct tasks as [|first rest].
  { split; [constructor |]. split; [constructor |]. split; [constructor |].
    intros earlier task later Heq. by destruct earlier. }
  unfold Console.deduplicate.
  destruct (deduplicate_loop (first :: rest) [] (NoDup_nil_2))
    as (added & Hloop & Hnd & Hsub & Hall & Hfirst).
  cbv zeta in Hloop. rewrite Hloop. cbn [app] in *.
  assert (added.*1 = TaskResult.task_id <$> added.*2) as Hkeys.
  { clear -Hall. induction Hall as [|[k t] added [Hk _] _ IH]; [done |].
    cbn in *. by rewrite Hk, IH. }
  split; [by rewrite <- Hkeys |]. split; [done |].
  split.
  - clear -Hall. induction Hall as [|[k t] added [Hk Hne] _ IH]; [constructor |].
    cbn in *. constructor; [congruence | done].
  - intros earlier task later Heq Hne Hearlier.
    apply (Hfirst earlier task later Heq Hne Hearlier). apply not_elem_of_nil.
Qed.

(** In the task list view every listed task is shown in exactly one of the
    four groups (in progress, completed, failed, cancelled), each group
    keeping the listed order; a task card offers the cancel button exactly
    for the tasks of the first group, which are those [cancel_task] acts
    on, and the delete button exactly for the tasks of the other three. *)
Theorem task_groups_partition_the_list (tasks : list TaskResult.t) :
  Console.in_progress_tasks tasks ++ Console.completed_tasks tasks
    ++ Console.failed_tasks tasks ++ Console.cancelled_tasks tasks ≡ₚ tasks
  ∧ sublist (Console.in_progress_tasks tasks) tasks
  ∧ sublist (Console.completed_tasks tasks) tasks
  ∧ sublist (Console.failed_tasks tasks) tasks
  ∧ sublist (Console.cancelled_tasks tasks) tasks
  ∧ (∀ task, task ∈ Console.in_progress_tasks tasks
             ↔ task ∈ tasks ∧ Console.can_cancel task = true)
  ∧ (∀ task, task ∈ Console.completed_tasks tasks ++ Console.failed_tasks tasks
                    ++ Console.cancelled_tasks tasks
             ↔ task ∈ tasks ∧ Console.can_delete task = true)
  ∧ (∀ task, Console.can_cancel task = negb (Console.can_delete task))
  ∧ (∀ task, Console.can_cancel task
             = (String.eqb (value (TaskResult.status task)) (value PENDING)
                || String.eqb (value (TaskResult.status task))
                     (value IN_PROGRESS))).
Proof.
  unfold Console.in_progress_tasks, Console.completed_tasks,
    Console.failed_tasks, Console.cancelled_tasks, Console.can_cancel,
    Console.can_delete, Console.status_in.
  split.
  { induction tasks as [|task tasks IH]; [done |].
    cbn [List.filter].
    etransitivity; [|apply perm_skip, IH].
    destruct (TaskResult.status task); cbn; clear IH;
      [done | done | solve_Permutation ..]. }
  assert (∀ keep : TaskResult.t → bool, sublist (List.filter keep tasks) tasks)
    as Hsub.
  { intros keep. induction tasks as [|task tasks IH]; [constructor |].
    cbn. destruct (keep task); by constructor. }
  repeat (split; [apply Hsub |]).
  split; [|split; [|split]].
  - intros task. rewrite list_elem_of_In, filter_In, <- list_elem_of_In. done.
  - intros task. rewrite !elem_of_app, !list_elem_of_In, !filter_In,
      <- !list_elem_of_In.
    destruct (TaskResult.status task); cbn; intuition congruence.
  - intros task. by destruct (TaskResult.status task).
  - intros task. by destruct (TaskResult.status task).
Qed.

(** ** The pipeline that is built *)

Lemma append_assoc (a b c : string) : (a +:+ b) +:+ c = a +:+ b +:+ c.
Proof. induction a as [|ch a IH]; [done |]. by rewrite !append_cons, IH. Qed.

(** With a library that records what it is given, [create_marketing_crew]
    builds, for every topic and language, the four steps in the order
    strategist, content creator, social media specialist, campaign
    manager, each assigned to the agent of that role with delegation
    disabled and a goal ending in the topic; every step's instructions ask
    for output in the task's language, or in the default language of the
    settings when the task has none or an empty one. *)
Theorem create_marketing_crew_steps
    (script : outcome string) (settings : Settings) (topic : string)
    (language : option string) :
  let output_language :=
    match language with
    | Some (String c rest) => String c rest
    | _ => app_language settings
    end in
  ∃ steps,
    create_marketing_crew (scripted_lib script) settings topic language
    = Returned steps
    ∧ (role ∘ agent) <$> steps
      = ["Marketing Strategist"; "Content Creator"; "Social Media Specialist";
         "Campaign Manager"]
    ∧ Forall (λ step, allow_delegation (agent step) = false) steps
    ∧ Forall (λ step, ∃ opening, goal (agent step) = opening +:+ topic) steps
    ∧ Forall (λ step, ∃ opening,
                description step
                = opening +:+ "be in " +:+ output_language +:+ ".") steps.
Proof.
  intros output_language.
  assert (output_language_of settings language = output_language) as Hlang
    by (by destruct language as [[|c rest]|]).
  eexists. split; [reflexivity |]. rewrite Hlang. cbn [fmap list_fmap compose].
  split; [reflexivity |].
  split; [by repeat constructor |].
  split; [repeat constructor; cbn; by eexists |].
  repeat constructor; cbn [description].
  - match goal with
    | |- ∃ opening, ?A +:+ topic +:+ ?B +:+ _ = _ =>
        exists (A +:+ topic
                +:+ String.substring 0 (String.length B - 6) B)
    end.
    by rewrite !append_assoc.
  - match goal with
    | |- ∃ opening, ?B +:+ _ = _ =>
        exists (String.substring 0 (String.length B - 6) B)
    end.
    reflexivity.
  - match goal with
    | |- ∃ opening, ?B +:+ _ = _ =>
        exists (String.substring 0 (String.length B - 6) B)
    end.
    reflexivity.
  - match goal with
    | |- ∃ opening, ?B +:+ _ = _ =>
        exists (String.substring 0 (String.length B - 6) B)
    end.
    reflexivity.
Qed.

(** ** The served list, as the console receives it *)

Lemma sublist_same_length {A} (l k : list A) :
  sublist l k → length k ≤ length l → l = k.
Proof.
  induction 1 as [|x l k Hsub IH|x l k Hsub IH]; intros Hlen; [done | |].
  - f_equal. apply IH. cbn in Hlen. lia.
  - apply sublist_length in Hsub. cbn in Hlen. lia.
Qed.

Lemma list_tasks_body (w : World) :
  ∃ body,
    (respond list_tasks w).1 = Status200 body
    ∧ (body = []
       ∨ Forall2 (λ row record, task_to_result row = Returned record)
           ((merge_sort created_desc (map_to_list (store w))).*2) body).
Proof.
  unfold respond, list_tasks. rewrite bind_run. unfold new_session, modify.
  unfold try_exceptM. rewrite bind_run.
  set (w0 := with_session (λ _, ∅) w).
  destruct (store_fault w) as [e|] eqn:Hf.
  - rewrite (get_all_tasks_unreachable w0 e) by done. exists []. by split; [|left].
  - destruct (get_all_tasks_reachable w0) as (w1 & -> & _); [done |].
    change (store w0) with (store w). unfold lift.
    destruct (mapM task_to_result _) as [results|e] eqn:Hmap.
    + exists results. split; [done |]. right. by apply mapM_Returned.
    + exists []. by split; [|left].
Qed.

(** When every stored row is filed under its own identifier and no
    identifier is empty, the list GET /tasks serves holds no identifier
    twice, and the console's deduplication leaves it exactly as served. *)
Theorem served_list_needs_no_deduplication (w : World) :
  (∀ key row, store w !! key = Some row → MarketingTask.task_id row = key) →
  store w !! "" = None →
  ∃ body,
    (respond list_tasks w).1 = Status200 body
    ∧ NoDup (TaskResult.task_id <$> body)
    ∧ Console.deduplicate body = body.
Proof.
  intros Hfiled Hnonempty.
  destruct (list_tasks_body w) as (body & Hbody & Hrows).
  exists body. split; [exact Hbody |].
  assert (NoDup (TaskResult.task_id <$> body)
          ∧ Forall (λ record, TaskResult.task_id record ≠ "") body)
    as [Hnodup Hids].
  { destruct Hrows as [-> | Hrows]; [split; constructor |].
    set (rows := merge_sort created_desc (map_to_list (store w))) in *.
    assert (rows ≡ₚ map_to_list (store w)) as Hperm
      by apply merge_sort_Permutation.
    assert (TaskResult.task_id <$> body = rows.*1) as Hkeys.
    { assert (Forall (λ binding, MarketingTask.task_id binding.2 = binding.1)
                rows) as Hall.
      { apply Forall_forall. intros [key row] Hin. cbn. apply Hfiled.
        apply elem_of_map_to_list. by rewrite <- Hperm. }
      clear Hperm Hbody. revert body Hrows.
      induction Hall as [|[key row] rows Hkey _ IH]; intros body Hrows.
      - by apply Forall2_nil_inv_l in Hrows as ->.
      - apply Forall2_cons_inv_l in Hrows as (record & body' & Hrecord & Hrest & ->).
        cbn in *. rewrite (IH body' Hrest). f_equal.
        pose proof (task_to_result_fields row) as Hfields.
        rewrite Hrecord in Hfields. by rewrite Hfields. }
    split.
    - rewrite Hkeys, Hperm. apply NoDup_fst_map_to_list.
    - apply Forall_forall. intros record Hin Hempty.
      assert ("" ∈ rows.*1) as Hin'.
      { rewrite <- Hkeys, <- Hempty. by apply list_elem_of_fmap_2. }
      rewrite Hperm in Hin'.
      apply list_elem_of_fmap in Hin' as ([key row] & Hkey & Hin').
      apply elem_of_map_to_list in Hin'. cbn in Hkey. subst key. congruence. }
  split; [exact Hnodup |].
  destruct body as [|first rest]; [done |].
  unfold Console.deduplicate.
  destruct (deduplicate_loop (first :: rest) [] (NoDup_nil_2))
    as (added & Hloop & Hnd & Hsub & Hall & Hfirst).
  cbv zeta in Hloop. rewrite Hloop. cbn [app] in *.
  apply sublist_same_length; [exact Hsub |].
  apply submseteq_length, NoDup_submseteq.
  - by apply NoDup_fmap_1 in Hnodup.
  - intros record Hin. apply list_elem_of_split in Hin as (earlier & later & Heq).
    apply (Hfirst earlier record later Heq).
    + rewrite Forall_forall in Hids. apply Hids. rewrite Heq.
      apply elem_of_app. right. left.
    + rewrite Heq, fmap_app, fmap_cons in Hnodup.
      apply NoDup_app in Hnodup as (_ & Hdisjoint & _).
      intros Hin. apply (Hdisjoint _ Hin). left.
    + apply not_elem_of_nil.
Qed.

Lemma served_list_needs_no_deduplication_example :
  ∃ body,
    (respond list_tasks (world_of done_t1)).1 = Status200 body
    ∧ NoDup (TaskResult.task_id <$> body)
    ∧ Console.deduplicate body = body.
Proof.
  apply (served_list_needs_no_deduplication (world_of done_t1)).
  - intros key row Hrow. cbn in Hrow.
    apply lookup_singleton_Some in Hrow as [<- <-]. reflexivity.
  - reflexivity.
Defined.
